(** * ISS-Horizon: visibility-window extraction and TLE acquisition

    A shallow embedding of the core of the [iss_horizon] package
    ([utils.py], [tle.py], [predictor.py], with the records of [models.py]
    and [config.py] they use, and the star labels and the grouping by day
    of [report.py] and [cli.py]) and the proofs of its specified
    properties.

    Modelling conventions.
    - A Python [int] is a [Z].
    - A Python [float] is a [Q]: every finite float is a rational, and the
      comparisons the code performs on floats are exact.  The arithmetic of
      [az_to_cardinal] ([%], [/], [+], [//]) is taken over exact rationals.
    - A [str] is a Rocq [string]; [lower] and [strip] act on ASCII.
    - An aware [datetime] is an absolute instant in microseconds together
      with the name of its zone; a [timedelta] is a number of microseconds.
    - A raised exception is a value of [exn]; a call that may raise returns
      a [result].
    - The module-level cache of [tle.py] is a [gmap]; the state of the
      outside world (the HTTP server) is threaded explicitly. *)

From Stdlib Require Import ZArith QArith Qround List String Ascii Bool Lia Lqa.
From Stdlib Require Import Permutation Sorted DecimalString.
From stdpp Require Import gmap strings.
Import ListNotations.

Open Scope Z_scope.

(* ===================================================================== *)
(** * Python runtime: exceptions, results, sequences                      *)
(* ===================================================================== *)

Module Py.

(** The exceptions that the modelled code raises or catches.
    [HTTPError] is a subclass of [RequestException] in [requests];
    [RequestException] below stands for every other member of that class
    (connection failure, timeout, ...). *)
Inductive exn : Type :=
| ValueError (msg : string)
| IndexError (msg : string)
| HTTPError (status_code : option Z) (msg : string)
| RequestException (msg : string)
| TLEFetchError (msg : string)
| PredictionError (msg : string)
| OtherError (msg : string).

(** The outcome of a call: a value, a raised exception, or [OutOfFuel]
    when a loop of the model was cut before the loop of the code ended.
    No [except] clause catches [OutOfFuel]. *)
Inductive result (A : Type) : Type :=
| Ok (a : A)
| Raise (e : exn)
| OutOfFuel.
Arguments Ok {A} a.
Arguments Raise {A} e.
Arguments OutOfFuel {A}.

Definition bind {A B : Type} (r : result A) (k : A -> result B) : result B :=
  match r with
  | Ok a => k a
  | Raise e => Raise e
  | OutOfFuel => OutOfFuel
  end.

Notation "'try!' x <- r ; k" := (bind r (fun x => k))
  (at level 10, x name, r at level 100, k at level 200,
   format "'[v' 'try!'  x  <-  r ; '/' k ']'").

(** [str(exc)] *)
Definition str_exn (e : exn) : string :=
  match e with
  | ValueError m | IndexError m | HTTPError _ m | RequestException m
  | TLEFetchError m | PredictionError m | OtherError m => m
  end.

(** [isinstance(e, requests.RequestException)] *)
Definition is_request_exception (e : exn) : bool :=
  match e with
  | HTTPError _ _ | RequestException _ => true
  | _ => false
  end.

(** [len(l)] *)
Definition len {A : Type} (l : list A) : Z := Z.of_nat (length l).

(** [l[i]], with Python's negative indices; [None] is an [IndexError]. *)
Definition getitem {A : Type} (l : list A) (i : Z) : option A :=
  if (0 <=? i) && (i <? len l) then nth_error l (Z.to_nat i)
  else if (- len l <=? i) && (i <? 0) then nth_error l (Z.to_nat (len l + i))
  else None.

(** [l[i]] as a call that raises [IndexError]. *)
Definition index {A : Type} (l : list A) (i : Z) : result A :=
  match getitem l i with
  | Some a => Ok a
  | None => Raise (IndexError "list index out of range")
  end.

(** [range(a, b)] *)
Definition range (a b : Z) : list Z :=
  map (fun k => a + Z.of_nat k) (seq 0 (Z.to_nat (b - a))).

(** [enumerate(l)] *)
Definition enumerate {A : Type} (l : list A) : list (Z * A) :=
  combine (range 0 (len l)) l.

(** ** Strings (ASCII) *)

Definition is_upper (c : ascii) : bool :=
  (65 <=? nat_of_ascii c)%nat && (nat_of_ascii c <=? 90)%nat.

Definition lower_char (c : ascii) : ascii :=
  if is_upper c then ascii_of_nat (nat_of_ascii c + 32) else c.

(** [s.lower()] *)
Definition lower (s : string) : string :=
  string_of_list_ascii (map lower_char (list_ascii_of_string s)).

(** [c.isspace()]: tab, line feed, vertical tab, form feed, carriage
    return, the separators 28..31, and space. *)
Definition is_space (c : ascii) : bool :=
  let n := nat_of_ascii c in
  ((9 <=? n)%nat && (n <=? 13)%nat) || ((28 <=? n)%nat && (n <=? 32)%nat).

Fixpoint lstrip_chars (l : list ascii) : list ascii :=
  match l with
  | c :: l' => if is_space c then lstrip_chars l' else l
  | [] => []
  end.

(** [s.strip()] *)
Definition strip (s : string) : string :=
  string_of_list_ascii
    (rev (lstrip_chars (rev (lstrip_chars (list_ascii_of_string s))))).

(** A line boundary of [str.splitlines]: line feed, vertical tab, form
    feed, carriage return, and the separators 28..30. *)
Definition is_linebreak (c : ascii) : bool :=
  let n := nat_of_ascii c in
  ((10 <=? n)%nat && (n <=? 13)%nat) || ((28 <=? n)%nat && (n <=? 30)%nat).

(** [cur] holds the characters of the current line, last first. *)
Fixpoint splitlines_chars (cur : list ascii) (l : list ascii) : list string :=
  match l with
  | [] => match cur with
          | [] => []
          | _ => [string_of_list_ascii (rev cur)]
          end
  | c :: l' =>
      if is_linebreak c then
        string_of_list_ascii (rev cur) ::
        match c, l' with
        | "013"%char, "010"%char :: l'' => splitlines_chars [] l''
        | _, _ => splitlines_chars [] l'
        end
      else splitlines_chars (c :: cur) l'
  end.

(** [s.splitlines()] *)
Definition splitlines (s : string) : list string :=
  splitlines_chars [] (list_ascii_of_string s).

(** [s.startswith(p)] *)
Definition startswith (s p : string) : bool := String.prefix p s.

(** [s * n]: [n] copies of [s], none when [n <= 0]. *)
Definition str_mul (s : string) (n : Z) : string :=
  String.concat EmptyString (repeat s (Z.to_nat n)).




End Py.

(* ===================================================================== *)
(** * models.py, config.py                                                *)
(* ===================================================================== *)

Module Models.
Import Py.

Record TLE : Type := {
  name : string;
  line1 : string;
  line2 : string
}.

(** A timezone-aware [datetime]: the absolute instant, in microseconds
    since the epoch, and the zone it is displayed in. *)
Record datetime : Type := {
  instant : Z;
  tzinfo : string
}.

Definition UTC : string := "UTC".

(** A [datetime] argument whose [tzinfo] may be [None]. *)
Inductive any_datetime : Type :=
| Naive (wall_clock : Z)
| Aware (d : datetime).

(** [d.astimezone(tz)] on an aware value: same instant, other zone. *)
Definition astimezone (d : datetime) (tz : string) : datetime :=
  {| instant := instant d; tzinfo := tz |}.

(** [d + timedelta] *)
Definition dt_add (d : datetime) (delta : Z) : datetime :=
  {| instant := instant d + delta; tzinfo := tzinfo d |}.

(** Aware values compare by instant. *)
Definition dt_leb (a b : datetime) : bool := instant a <=? instant b.
Definition dt_ltb (a b : datetime) : bool := instant a <? instant b.
Definition dt_eqb (a b : datetime) : bool := instant a =? instant b.

(** [timedelta(seconds=n)] and [td.total_seconds()], a [timedelta] being
    a number of microseconds. *)
Definition timedelta_seconds (n : Z) : Z := n * 1000000.
Definition total_seconds (td : Z) : Q := inject_Z td / 1000000.

Record Location : Type := {
  query : string;
  resolved_name : string;
  latitude : Q;
  longitude : Q;
  timezone_name : string;
  timezone : string
}.

Record VisibilityWindow : Type := {
  start_local : datetime;
  end_local : datetime;
  peak_local : datetime;
  duration : Z;
  peak_elevation_deg : Q;
  start_azimuth_deg : Q;
  peak_azimuth_deg : Q;
  end_azimuth_deg : Q;
  start_direction : string;
  peak_direction : string;
  end_direction : string;
  visibility_stars : Z
}.

Definition Qlt_bool (a b : Q) : bool := negb (Qle_bool b a).

(** [VisibilityWindow.__post_init__]; the three [tzinfo is None] tests
    cannot fire on aware values. *)
Definition post_init (w : VisibilityWindow) : result VisibilityWindow :=
  if dt_ltb (end_local w) (start_local w) then
    Raise (ValueError "end_local must not be before start_local")
  else if Qlt_bool (total_seconds (duration w)) 0 then
    Raise (ValueError "duration must not be negative")
  else if negb ((1 <=? visibility_stars w) && (visibility_stars w <=? 5)) then
    Raise (ValueError "visibility_stars must be in 1..5")
  else Ok w.

End Models.

Module Config.

Record Config : Type := {
  tle_url : string;
  tle_name : string;
  nominatim_user_agent : string;
  min_elev_deg : Q;
  twilight_deg : Q;
  sample_seconds : Z;
  min_window_seconds : Z;
  project_url : string
}.

(** The defaults of the dataclass. *)
Definition default : Config := {|
  tle_url := "https://celestrak.org/NORAD/elements/gp.php?GROUP=stations&FORMAT=tle";
  tle_name := "ISS (ZARYA)";
  nominatim_user_agent := "iss-horizon/0.1 (contact: set-your-email)";
  min_elev_deg := 12;
  twilight_deg := -10;
  sample_seconds := 10;
  min_window_seconds := 40;
  project_url := EmptyString
|}.

End Config.

(* ===================================================================== *)
(** * utils.py                                                            *)
(* ===================================================================== *)

Module Utils.
Import Py.

(** A float comparison [a >= b]. *)
Definition Qge_bool (a b : Q) : bool := Qle_bool b a.

Definition labels_map (points : Z) : option (list string) :=
  if points =? 4 then Some ["N"; "E"; "S"; "W"]%string
  else if points =? 8 then
    Some ["N"; "NE"; "E"; "SE"; "S"; "SW"; "W"; "NW"]%string
  else if points =? 16 then
    Some ["N"; "NNE"; "NE"; "ENE"; "E"; "ESE"; "SE"; "SSE";
          "S"; "SSW"; "SW"; "WSW"; "W"; "WNW"; "NW"; "NNW"]%string
  else None.

(** [x % y] on floats, for [y > 0]: the result has the sign of [y]. *)
Definition Qmod (x y : Q) : Q := (x - y * inject_Z (Qfloor (x / y)))%Q.

(** [int(x // y)] on floats. *)
Definition Qfloordiv (x y : Q) : Z := Qfloor (x / y).

Definition az_to_cardinal (az_deg : Q) (points : Z) : result string :=
  match labels_map points with
  | None => Raise (ValueError "points must be one of: 4, 8, 16")
  | Some labels =>
      let normalized := Qmod az_deg 360 in
      let bucket_size := (360 / inject_Z points)%Q in
      let index :=
        Qfloordiv (normalized + bucket_size / 2)%Q bucket_size mod points in
      Py.index labels index
  end.

(** One iteration of the loop of [contiguous_true_spans]; the state is
    the pair of [spans] and [start]. *)
Definition span_step (st : list (Z * Z) * option Z) (iv : Z * bool)
  : list (Z * Z) * option Z :=
  let '(spans, start) := st in
  let '(index, value) := iv in
  match value, start with
  | true, None => (spans, Some index)
  | false, Some s => (spans ++ [(s, index - 1)], None)
  | _, _ => (spans, start)
  end.

Definition contiguous_true_spans (mask : list bool) : list (Z * Z) :=
  let '(spans, start) := fold_left span_step (enumerate mask) ([], None) in
  match start with
  | Some s => spans ++ [(s, len mask - 1)]
  | None => spans
  end.

Definition visibility_stars (peak_elevation_deg duration_seconds : Q) : Z :=
  let score := 1 in
  let score := if Qge_bool peak_elevation_deg 20 then score + 1 else score in
  let score := if Qge_bool peak_elevation_deg 40 then score + 1 else score in
  let score := if Qge_bool peak_elevation_deg 65 then score + 1 else score in
  let score := if Qge_bool duration_seconds 120 then score + 1 else score in
  Z.max 1 (Z.min score 5).

(** The two symbols of [stars_text], as their UTF-8 bytes: the black star
    U+2605 and the white star U+2606. *)
Definition black_star : string :=
  String "226"%char (String "152"%char (String "133"%char EmptyString)).
Definition white_star : string :=
  String "226"%char (String "152"%char (String "134"%char EmptyString)).

Definition stars_text (stars : Z) : result string :=
  if negb ((1 <=? stars) && (stars <=? 5)) then
    Raise (ValueError "stars must be in 1..5")
  else Ok (str_mul black_star stars ++ str_mul white_star (5 - stars))%string.


End Utils.

(* ===================================================================== *)
(** * tle.py                                                              *)
(* ===================================================================== *)

Module Tle.
Import Py Models.

(** The HTTP side of [requests.get(url).raise_for_status()]: what the
    request for [url] produces, given the requests made before it.  A
    response with a non-success status is [Raise (HTTPError ...)], a
    transport failure is [Raise (RequestException ...)]. *)
Definition Server : Type := list string -> string -> result string.

(** The module state [_TLE_CACHE], and the requests sent so far. *)
Record state : Type := {
  _TLE_CACHE : gmap (string * string) TLE;
  requests_sent : list string
}.

Definition _FALLBACK_STATIONS_URL : string :=
  "https://celestrak.org/NORAD/elements/stations.txt".
Definition _FALLBACK_GP_URL : string :=
  "https://celestrak.org/NORAD/elements/gp.php?GROUP=stations&FORMAT=tle".
Definition _BUNDLED_ISS_TLE : TLE := {|
  name := "ISS (ZARYA)";
  line1 := "1 25544U 98067A   26051.50000000  .00010000  00000+0  18277-3 0  9991";
  line2 := "2 25544  51.6417 200.0000 0005825 100.0000 300.0000 15.50000000000000"
|}.

Definition _fetch_text (server : Server) (url : string) (st : state)
  : result string * state :=
  (server (requests_sent st) url,
   {| _TLE_CACHE := _TLE_CACHE st;
      requests_sent := requests_sent st ++ [url] |}).

(** The [for index in range(0, len(lines) - 2)] loop of [_parse_tle]. *)
Fixpoint _parse_tle_loop (lines : list string) (target : string)
    (indices : list Z) : result (option TLE) :=
  match indices with
  | [] => Ok None
  | index :: rest =>
      try! sat_name <- Py.index lines index;
      try! l1 <- Py.index lines (index + 1);
      try! l2 <- Py.index lines (index + 2);
      if String.eqb (lower sat_name) target
         && startswith l1 "1 " && startswith l2 "2 "
      then Ok (Some {| name := sat_name; line1 := l1; line2 := l2 |})
      else _parse_tle_loop lines target rest
  end.

Definition nonblank (line : string) : bool :=
  negb (String.eqb (strip line) EmptyString).

Definition _parse_tle (name text source_url : string) : result TLE :=
  let lines := map strip (filter nonblank (splitlines text)) in
  let target := lower (strip name) in
  try! found <- _parse_tle_loop lines target (range 0 (len lines - 2));
  match found with
  | Some tle => Ok tle
  | None =>
      Raise (TLEFetchError ("TLE '" ++ name ++ "' not found in " ++ source_url))
  end.

Definition _bundled_tle (name : string) : option TLE :=
  if String.eqb (lower (strip name)) (lower (Models.name _BUNDLED_ISS_TLE))
  then Some _BUNDLED_ISS_TLE
  else None.

Definition store (key : string * string) (tle : TLE) (st : state) : state :=
  {| _TLE_CACHE := <[key := tle]> (_TLE_CACHE st);
     requests_sent := requests_sent st |}.

(** The three lines shared by every [except] branch: return the bundled
    set when it applies, else raise [TLEFetchError] for [failed_url]. *)
Definition bundled_or_raise (name : string) (key : string * string)
    (failed_url : string) (exc : exn) (st : state) : result TLE * state :=
  match _bundled_tle name with
  | Some bundled => (Ok bundled, store key bundled st)
  | None =>
      (Raise (TLEFetchError
                ("Failed to fetch TLE from " ++ failed_url ++ ": " ++ str_exn exc)),
       st)
  end.

(** The body of a [try]: fetch, parse, cache. *)
Definition fetch_and_parse (server : Server) (name url : string)
    (key : string * string) (st : state) : result TLE * state :=
  let '(fetched, st1) := _fetch_text server url st in
  match (try! text <- fetched; _parse_tle name text url) with
  | Ok tle => (Ok tle, store key tle st1)
  | other => (other, st1)
  end.

Definition fetch_tle (server : Server) (name url : string) (st : state)
  : result TLE * state :=
  let cache_key := (name, url) in
  match _TLE_CACHE st !! cache_key with
  | Some cached => (Ok cached, st)
  | None =>
      match fetch_and_parse server name url cache_key st with
      | (Raise (HTTPError status_code msg as exc), st1) =>
          if (match status_code with Some c => c =? 403 | None => false end)
             && String.eqb url _FALLBACK_STATIONS_URL
          then
            match fetch_and_parse server name _FALLBACK_GP_URL cache_key st1 with
            | (Raise fallback_exc, st2) =>
                if is_request_exception fallback_exc
                then bundled_or_raise name cache_key _FALLBACK_GP_URL fallback_exc st2
                else (Raise fallback_exc, st2)
            | done => done
            end
          else bundled_or_raise name cache_key url exc st1
      | (Raise (RequestException msg as exc), st1) =>
          bundled_or_raise name cache_key url exc st1
      | done => done
      end
  end.

End Tle.

(* ===================================================================== *)
(** * predictor.py                                                        *)
(* ===================================================================== *)

Module Predictor.
Import Py Models Config.

(** ** The external collaborator (Skyfield) *)

(** A Skyfield [Time], given by what its [utc_datetime()] returns: a
    [datetime], a sequence (an item that is not a [datetime] is [None]),
    or anything else. *)
Inductive Time : Type :=
| RawDatetime (d : any_datetime)
| RawSequence (items : list (option any_datetime))
| RawOther.

(** The calls that [visible_windows_between] and [_predict_pass_windows]
    make to Skyfield; each may raise. *)
Record Skyfield : Type := {
  (** [self.loader.timescale()] *)
  load_timescale : result unit;
  (** [EarthSatellite(...)], [wgs84.latlon(...)], [self.loader("de421.bsp")] *)
  load_satellite : TLE -> Location -> result unit;
  (** [satellite.find_events(observer, t0, t1, altitude_degrees=...)] *)
  find_events : TLE -> Location -> datetime -> datetime -> Q ->
                result (list Time * list Z);
  (** the [altaz()] and [is_sunlit] arrays at the sample times: satellite
      altitude, satellite azimuth, sun altitude, sunlit flag *)
  sample_geometry : TLE -> Location -> list datetime ->
                    result (list Q * list Q * list Q * list bool)
}.

(** ** [ISSPredictor._visibility_stars] *)

Definition _visibility_stars (peak_elevation_deg duration_seconds : Q) : Z :=
  let score := 1 in
  let score := if Utils.Qge_bool peak_elevation_deg 20 then score + 1 else score in
  let score := if Utils.Qge_bool peak_elevation_deg 40 then score + 1 else score in
  let score := if Utils.Qge_bool peak_elevation_deg 65 then score + 1 else score in
  let score := if Utils.Qge_bool duration_seconds 120 then score + 1 else score in
  Z.max 1 (Z.min score 5).

(** ** [ISSPredictor._single_utc_datetime] *)

Definition _single_utc_datetime (time_value : Time) : result datetime :=
  try! dt_value <-
    match time_value with
    | RawDatetime d => Ok d
    | RawSequence items =>
        if negb (len items =? 1) then
          Raise (PredictionError "Expected a single event time")
        else
          match items with
          | Some first_item :: _ => Ok first_item
          | _ => Raise (PredictionError "Unsupported event time value")
          end
    | RawOther => Raise (PredictionError "Unsupported event time representation")
    end;
  match dt_value with
  | Naive wall_clock => Ok {| instant := wall_clock; tzinfo := UTC |}
  | Aware d => Ok (astimezone d UTC)
  end.

(** ** The sampling loop of [_predict_pass_windows] *)

(** [while cursor <= set_dt: samples_utc.append(cursor); cursor += step] *)
Fixpoint sample_loop (fuel : nat) (cursor set_dt : datetime) (step : Z)
    (samples_utc : list datetime) : result (list datetime) :=
  match fuel with
  | O => OutOfFuel
  | S fuel' =>
      if dt_leb cursor set_dt
      then sample_loop fuel' (dt_add cursor step) set_dt step
                       (samples_utc ++ [cursor])
      else Ok samples_utc
  end.

(** The statements of [_predict_pass_windows] that build [samples_utc]. *)
Definition pass_samples (fuel : nat) (config : Config)
    (rise_dt set_dt : datetime) : result (list datetime) :=
  let step := timedelta_seconds (sample_seconds config) in
  try! samples_utc <- sample_loop fuel rise_dt set_dt step [];
  try! last_sample <- index samples_utc (-1);
  if negb (dt_eqb last_sample set_dt)
  then Ok (samples_utc ++ [set_dt])
  else Ok samples_utc.

(** ** [ISSPredictor._windows_from_samples] *)

Fixpoint mapM {A B : Type} (f : A -> result B) (l : list A) : result (list B) :=
  match l with
  | [] => Ok []
  | a :: l' =>
      try! b <- f a;
      try! bs <- mapM f l';
      Ok (b :: bs)
  end.

(** One element of the [mask] comprehension; [and] evaluates its right
    operand only when the left one is true. *)
Definition visible_at (config : Config) (iss_alt_deg sun_alt_deg : list Q)
    (iss_sunlit : list bool) (i : Z) : result bool :=
  try! alt <- index iss_alt_deg i;
  if negb (Utils.Qge_bool alt (min_elev_deg config)) then Ok false
  else
    try! sun <- index sun_alt_deg i;
    if negb (Qle_bool sun (twilight_deg config)) then Ok false
    else index iss_sunlit i.

Definition visibility_mask (config : Config) (iss_alt_deg sun_alt_deg : list Q)
    (iss_sunlit : list bool) (n : Z) : result (list bool) :=
  mapM (visible_at config iss_alt_deg sun_alt_deg iss_sunlit) (range 0 n).

(** [max(items, key=key)]: the first item whose key no later key exceeds. *)
Fixpoint max_key_loop (key : Z -> result Q) (best : Z) (best_key : Q)
    (items : list Z) : result Z :=
  match items with
  | [] => Ok best
  | item :: rest =>
      try! k <- key item;
      if Qlt_bool best_key k
      then max_key_loop key item k rest
      else max_key_loop key best best_key rest
  end.

Definition max_key (key : Z -> result Q) (items : list Z) : result Z :=
  match items with
  | [] => Raise (ValueError "max() iterable argument is empty")
  | item :: rest =>
      try! k <- key item;
      max_key_loop key item k rest
  end.

(** The body of the [for start_idx, end_idx in ...] loop: [None] is the
    [continue] of a span that is too short. *)
Definition window_of_span (config : Config) (loc : Location)
    (sample_times_utc : list datetime) (iss_alt_deg iss_az_deg : list Q)
    (span : Z * Z) : result (option VisibilityWindow) :=
  let '(start_idx, end_idx) := span in
  try! start_utc <- index sample_times_utc start_idx;
  try! end_utc <- index sample_times_utc end_idx;
  let duration := instant end_utc - instant start_utc in
  if Qlt_bool (total_seconds duration) (inject_Z (min_window_seconds config))
  then Ok None
  else
    let span_indices := range start_idx (end_idx + 1) in
    try! peak_idx <- max_key (fun idx => index iss_alt_deg idx) span_indices;
    let start_local := astimezone start_utc (timezone loc) in
    let end_local := astimezone end_utc (timezone loc) in
    try! peak_utc <- index sample_times_utc peak_idx;
    let peak_local := astimezone peak_utc (timezone loc) in
    try! start_az <- index iss_az_deg start_idx;
    try! peak_az <- index iss_az_deg peak_idx;
    try! end_az <- index iss_az_deg end_idx;
    try! peak_alt <- index iss_alt_deg peak_idx;
    try! start_dir <- Utils.az_to_cardinal start_az 16;
    try! peak_dir <- Utils.az_to_cardinal peak_az 16;
    try! end_dir <- Utils.az_to_cardinal end_az 16;
    try! window <- post_init {|
      start_local := start_local;
      end_local := end_local;
      peak_local := peak_local;
      duration := duration;
      peak_elevation_deg := peak_alt;
      start_azimuth_deg := start_az;
      peak_azimuth_deg := peak_az;
      end_azimuth_deg := end_az;
      start_direction := start_dir;
      peak_direction := peak_dir;
      end_direction := end_dir;
      visibility_stars := _visibility_stars peak_alt (total_seconds duration)
    |};
    Ok (Some window).

Fixpoint windows_loop (config : Config) (loc : Location)
    (sample_times_utc : list datetime) (iss_alt_deg iss_az_deg : list Q)
    (spans : list (Z * Z)) (windows : list VisibilityWindow)
  : result (list VisibilityWindow) :=
  match spans with
  | [] => Ok windows
  | span :: rest =>
      try! emitted <- window_of_span config loc sample_times_utc
                                     iss_alt_deg iss_az_deg span;
      windows_loop config loc sample_times_utc iss_alt_deg iss_az_deg rest
        match emitted with
        | Some window => windows ++ [window]
        | None => windows
        end
  end.

(** [n == len(a) == len(b) == len(c) == len(d)] *)
Definition same_length (n : Z) (iss_alt_deg iss_az_deg sun_alt_deg : list Q)
    (iss_sunlit : list bool) : bool :=
  (n =? len iss_alt_deg) && (len iss_alt_deg =? len iss_az_deg)
  && (len iss_az_deg =? len sun_alt_deg) && (len sun_alt_deg =? len iss_sunlit).

Definition _windows_from_samples (config : Config) (loc : Location)
    (sample_times_utc : list datetime)
    (iss_alt_deg iss_az_deg sun_alt_deg : list Q) (iss_sunlit : list bool)
  : result (list VisibilityWindow) :=
  let n := len sample_times_utc in
  if negb (same_length n iss_alt_deg iss_az_deg sun_alt_deg iss_sunlit) then
    Raise (PredictionError "Sample arrays must have the same length")
  else if n =? 0 then Ok []
  else
    try! mask <- visibility_mask config iss_alt_deg sun_alt_deg iss_sunlit n;
    windows_loop config loc sample_times_utc iss_alt_deg iss_az_deg
                 (Utils.contiguous_true_spans mask) [].

(** ** [ISSPredictor._predict_pass_windows] *)

Definition _predict_pass_windows (fuel : nat) (sky : Skyfield)
    (config : Config) (loc : Location) (tle : TLE)
    (rise_time set_time : Time) : result (list VisibilityWindow) :=
  try! rise_dt <- _single_utc_datetime rise_time;
  try! set_dt <- _single_utc_datetime set_time;
  try! samples_utc <- pass_samples fuel config rise_dt set_dt;
  try! geometry <- sample_geometry sky tle loc samples_utc;
  let '(iss_alt, iss_az, sun_alt, iss_sunlit) := geometry in
  _windows_from_samples config loc samples_utc iss_alt iss_az sun_alt iss_sunlit.

(** ** [ISSPredictor.visible_windows_between] *)

(** The [for event_time, event_type in zip(...)] loop; the state is the
    pair of [rise_time] and [all_windows]. *)
Fixpoint events_loop (fuel : nat) (sky : Skyfield) (config : Config)
    (loc : Location) (tle : TLE) (events : list (Time * Z))
    (rise_time : option Time) (all_windows : list VisibilityWindow)
  : result (list VisibilityWindow) :=
  match events with
  | [] => Ok all_windows
  | (event_time, event_type) :: rest =>
      if event_type =? 0 then
        events_loop fuel sky config loc tle rest (Some event_time) all_windows
      else
        match event_type =? 2, rise_time with
        | true, Some rise =>
            try! pass_windows <-
              _predict_pass_windows fuel sky config loc tle rise event_time;
            events_loop fuel sky config loc tle rest None
                        (all_windows ++ pass_windows)
        | _, _ =>
            events_loop fuel sky config loc tle rest rise_time all_windows
        end
  end.

(** What [zip(a, b, strict=True)] raises once the shorter argument is
    exhausted, after the common prefix has been iterated. *)
Definition zip_strict_check {A B : Type} (a : list A) (b : list B)
  : result unit :=
  if len a =? len b then Ok tt
  else if len a <? len b then
    Raise (ValueError "zip() argument 2 is longer than argument 1")
  else Raise (ValueError "zip() argument 2 is shorter than argument 1").

(** [sorted(..., key=lambda item: item.start_local)]: a stable sort. *)
Fixpoint insert_by_start (w : VisibilityWindow) (l : list VisibilityWindow)
  : list VisibilityWindow :=
  match l with
  | [] => [w]
  | x :: l' =>
      if dt_leb (start_local w) (start_local x) then w :: x :: l'
      else x :: insert_by_start w l'
  end.

Definition sorted_by_start (l : list VisibilityWindow) : list VisibilityWindow :=
  fold_right insert_by_start [] l.

(** [except Exception as exc: raise PredictionError(...) from exc] *)
Definition wrap_prediction_error {A : Type} (r : result A) : result A :=
  match r with
  | Raise exc =>
      Raise (PredictionError ("Failed to predict ISS visibility: " ++ str_exn exc))
  | other => other
  end.

(** The statements of the [try] block that follow [fetch_tle]. *)
Definition predict_with_tle (fuel : nat) (sky : Skyfield) (config : Config)
    (loc : Location) (tle : TLE) (start_utc end_utc : datetime)
  : result (list VisibilityWindow) :=
  try! _ <- load_satellite sky tle loc;
  try! found <- find_events sky tle loc (astimezone start_utc UTC)
                            (astimezone end_utc UTC) (min_elev_deg config);
  let '(event_times, event_types) := found in
  try! all_windows <-
    events_loop fuel sky config loc tle (combine event_times event_types)
                None [];
  try! _ <- zip_strict_check event_times event_types;
  Ok (sorted_by_start all_windows).

Definition visible_windows_between (fuel : nat) (server : Tle.Server)
    (sky : Skyfield) (config : Config) (loc : Location)
    (start_utc end_utc : any_datetime) (st : Tle.state)
  : result (list VisibilityWindow) * Tle.state :=
  match start_utc, end_utc with
  | Aware start_dt, Aware end_dt =>
      if dt_leb end_dt start_dt then (Ok [], st)
      else
        match load_timescale sky with
        | Ok _ =>
            let '(fetched, st1) :=
              Tle.fetch_tle server (tle_name config) (tle_url config) st in
            (wrap_prediction_error
               (try! tle <- fetched;
                predict_with_tle fuel sky config loc tle start_dt end_dt),
             st1)
        | Raise exc => (wrap_prediction_error (Raise exc), st)
        | OutOfFuel => (OutOfFuel, st)
        end
  | _, _ =>
      (Raise (PredictionError "start_utc and end_utc must be timezone-aware"), st)
  end.

(** ** [ISSPredictor.visible_windows_next_hours] *)


End Predictor.

(* ===================================================================== *)
(** * report.py, cli.py: the star labels and the grouping by day          *)
(* ===================================================================== *)

Module Report.
Import Py Models.

Definition _stars_text (stars : Z) : result string :=
  if negb ((1 <=? stars) && (stars <=? 5)) then
    Raise (ValueError "stars must be in 1..5")
  else Ok (str_mul Utils.black_star stars
           ++ str_mul Utils.white_star (5 - stars))%string.

(** ** [_group_windows_by_day] *)


End Report.

Module Cli.
Import Py.

Definition _stars_text (stars : Z) : result string :=
  if negb ((1 <=? stars) && (stars <=? 5)) then
    Raise (ValueError "stars must be in 1..5")
  else Ok (str_mul Utils.black_star stars
           ++ str_mul Utils.white_star (5 - stars))%string.

End Cli.

(* ===================================================================== *)
(** * Specification-side definitions                                      *)
(* ===================================================================== *)

(** The loop of [contiguous_true_spans] as a recursion on the rest of
    the mask: [i] is the index of its first element, [start] the open
    run. *)
Fixpoint spans_from (i : Z) (start : option Z) (mask : list bool)
  : list (Z * Z) :=
  match mask with
  | [] => match start with
          | Some s => [(s, i - 1)]
          | None => []
          end
  | value :: rest =>
      match value, start with
      | true, None => spans_from (i + 1) (Some i) rest
      | false, Some s => (s, i - 1) :: spans_from (i + 1) None rest
      | _, _ => spans_from (i + 1) start rest
      end
  end.

(** [mask[j]] for an index that may be out of range (then false). *)
Definition mask_at (mask : list bool) (j : Z) : bool :=
  (0 <=? j) &&
  match nth_error mask (Z.to_nat j) with
  | Some b => b
  | None => false
  end.

(** Two spans with at least one index between them. *)
Definition gap (a b : Z * Z) : Prop := snd a + 1 < fst b.

(** [x] lies in the bucket centred on label [k]: the bucket is closed on
    its anticlockwise boundary and open on its clockwise one. *)
Definition in_bucket (points k : Z) (x : Q) : Prop :=
  let bucket_size := (360 / inject_Z points)%Q in
  (inject_Z k * bucket_size - bucket_size / 2 <= x /\
   x < inject_Z k * bucket_size + bucket_size / 2)%Q.

(** The score of section 4.5 of the specification, in its words. *)
Definition point (threshold x : Q) : Z :=
  if Qlt_le_dec x threshold then 0 else 1.

Definition score_spec (peak_elevation duration : Q) : Z :=
  1 + point 20 peak_elevation + point 40 peak_elevation
    + point 65 peak_elevation + point 120 duration.

(** [l[i]] for an index known to be in range. *)
Definition item {A : Type} (d : A) (l : list A) (i : Z) : A :=
  nth (Z.to_nat i) l d.

(** The visibility predicate of section 4.2 of the specification. *)
Definition visible (config : Config.Config) (iss_alt_deg sun_alt_deg : list Q)
    (iss_sunlit : list bool) (i : Z) : Prop :=
  (Config.min_elev_deg config <= item 0%Q iss_alt_deg i)%Q /\
  (item 0%Q sun_alt_deg i <= Config.twilight_deg config)%Q /\
  item false iss_sunlit i = true.

(** The default of [item] on a list of sample times. *)
Definition epoch : Models.datetime :=
  {| Models.instant := 0; Models.tzinfo := Models.UTC |}.

(** [p] is the first index of [s..e] at which the elevation is maximal. *)
Definition first_max (iss_alt_deg : list Q) (s e p : Z) : Prop :=
  s <= p <= e /\
  (forall j, s <= j <= e -> (item 0 iss_alt_deg j <= item 0 iss_alt_deg p)%Q) /\
  (forall j, s <= j < p -> (item 0 iss_alt_deg j < item 0 iss_alt_deg p)%Q).

(** The observer of the smoke tests. *)
Definition natal : Models.Location :=
  {| Models.query := "Natal";
     Models.resolved_name := "Natal, RN, Brazil";
     Models.latitude := -579 # 100;
     Models.longitude := -352 # 10;
     Models.timezone_name := "America/Fortaleza";
     Models.timezone := "America/Fortaleza" |}.

(** The samples of the smoke test: elevations 5, 16, 24, 23, 12, 4 at a
    spacing of 10 seconds from 2026-03-01 00:00:00 UTC, threshold 15
    degrees, minimum window 20 seconds. *)
Definition smoke_config : Config.Config :=
  {| Config.tle_url := Config.tle_url Config.default;
     Config.tle_name := Config.tle_name Config.default;
     Config.nominatim_user_agent := Config.nominatim_user_agent Config.default;
     Config.min_elev_deg := 15;
     Config.twilight_deg := -12;
     Config.sample_seconds := 10;
     Config.min_window_seconds := 20;
     Config.project_url := EmptyString |}.

Definition smoke_times : list Models.datetime :=
  map (fun i => {| Models.instant := 1772323200000000 + i * 10000000;
                   Models.tzinfo := Models.UTC |}) (Py.range 0 6).

Definition smoke_alt : list Q := [5; 16; 24; 23; 12; 4]%Q.

Definition smoke_az : list Q := [200; 220; 250; 280; 300; 320]%Q.

Definition smoke_sun : list Q := [-15; -15; -16; -16; -16; -16]%Q.

Definition smoke_sunlit : list bool := [true; true; true; true; true; true].

(** The label of the 16-point compass. *)
Definition compass16 (az_deg : Q) : string :=
  match Utils.az_to_cardinal az_deg 16 with
  | Py.Ok label => label
  | _ => EmptyString
  end.

(** The window of the span [s..e] whose peak is at [p]. *)
Definition window_at (config : Config.Config) (loc : Models.Location)
    (sample_times_utc : list Models.datetime) (iss_alt_deg iss_az_deg : list Q)
    (s e p : Z) : Models.VisibilityWindow :=
  let tz := Models.timezone loc in
  let duration :=
    Models.instant (item epoch sample_times_utc e)
    - Models.instant (item epoch sample_times_utc s) in
  {| Models.start_local := Models.astimezone (item epoch sample_times_utc s) tz;
     Models.end_local := Models.astimezone (item epoch sample_times_utc e) tz;
     Models.peak_local := Models.astimezone (item epoch sample_times_utc p) tz;
     Models.duration := duration;
     Models.peak_elevation_deg := item 0%Q iss_alt_deg p;
     Models.start_azimuth_deg := item 0%Q iss_az_deg s;
     Models.peak_azimuth_deg := item 0%Q iss_az_deg p;
     Models.end_azimuth_deg := item 0%Q iss_az_deg e;
     Models.start_direction := compass16 (item 0%Q iss_az_deg s);
     Models.peak_direction := compass16 (item 0%Q iss_az_deg p);
     Models.end_direction := compass16 (item 0%Q iss_az_deg e);
     Models.visibility_stars :=
       Predictor._visibility_stars (item 0%Q iss_alt_deg p)
                                   (Models.total_seconds duration) |}.

(** The sample times never go back. *)
Definition chronological (sample_times_utc : list Models.datetime) : Prop :=
  forall i j, 0 <= i <= j -> j < Py.len sample_times_utc ->
    Models.instant (item epoch sample_times_utc i)
    <= Models.instant (item epoch sample_times_utc j).



(** The requested name is that of the bundled satellite, up to case and
    surrounding whitespace. *)
Definition names_bundled (name : string) : Prop :=
  Py.lower (Py.strip name) = Py.lower (Models.name Tle._BUNDLED_ISS_TLE).

(** The failure is the access-denied response of the stations URL. *)
Definition stations_denied (e : Py.exn) (url : string) : Prop :=
  (exists msg, e = Py.HTTPError (Some 403) msg) /\
  url = Tle._FALLBACK_STATIONS_URL.

Definition empty_state : Tle.state :=
  {| Tle._TLE_CACHE := ∅; Tle.requests_sent := [] |}.

(** A server that answers every request with status 500. *)
Definition server_500 : Tle.Server :=
  fun _ _ => Py.Raise (Py.HTTPError (Some 500) "500 Server Error").

(** A server that is unreachable. *)
Definition server_down : Tle.Server :=
  fun _ _ => Py.Raise (Py.RequestException "connection refused").

(** A server that denies the first request and is unreachable after. *)
Definition server_403_then_down : Tle.Server :=
  fun sent _ =>
    match sent with
    | [] => Py.Raise (Py.HTTPError (Some 403) "403 Forbidden")
    | _ => Py.Raise (Py.RequestException "connection refused")
    end.







(** The call returns or raises: the model did not run out of fuel. *)
Definition total {A : Type} (r : Py.result A) : Prop := r <> Py.OutOfFuel.

(** A propagation service for a run on concrete data: one rise, one set
    a minute later, and at every sample a satellite that is high, sunlit
    and in a dark sky. *)
Definition demo_rise : Models.datetime :=
  {| Models.instant := 1772323200000000; Models.tzinfo := Models.UTC |}.

Definition demo_set : Models.datetime :=
  {| Models.instant := 1772323260000000; Models.tzinfo := Models.UTC |}.

Definition demo_sky : Predictor.Skyfield :=
  {| Predictor.load_timescale := Py.Ok tt;
     Predictor.load_satellite := fun _ _ => Py.Ok tt;
     Predictor.find_events := fun _ _ _ _ _ =>
       Py.Ok ([Predictor.RawDatetime (Models.Aware demo_rise);
               Predictor.RawDatetime (Models.Aware demo_set)], [0; 2]);
     Predictor.sample_geometry := fun _ _ samples =>
       Py.Ok (map (fun _ => 30%Q) samples, map (fun _ => 180%Q) samples,
              map (fun _ => (-20)%Q) samples, map (fun _ => true) samples) |}.

(** The documents served in [tests/test_tle.py]. *)
Definition newline : string := String "010"%char EmptyString.

Definition iss_document : string :=
  ("ISS (ZARYA)" ++ newline
   ++ "1 25544U 98067A   26051.50000000  .00010000  00000+0  18277-3 0  9991"
   ++ newline
   ++ "2 25544  51.6417 200.0000 0005825 100.0000 300.0000 15.50000000000000"
   ++ newline)%string.

Definition other_document : string :=
  ("OTHER SAT" ++ newline
   ++ "1 00000U 00000A   26051.50000000  .00000000  00000+0  00000-0 0  9991"
   ++ newline
   ++ "2 00000  00.0000 000.0000 0000000 000.0000 000.0000 01.00000000000000"
   ++ newline)%string.

(** A server that denies the first request and serves the ISS document
    after. *)
Definition server_403_then_iss : Tle.Server :=
  fun sent _ =>
    match sent with
    | [] => Py.Raise (Py.HTTPError (Some 403) "403")
    | _ => Py.Ok iss_document
    end.

(** [enumerate] of the rest of the mask, whose first index is [a]. *)
Definition enumerate_from {A : Type} (a : Z) (l : list A) : list (Z * A) :=
  combine (Py.range a (a + Py.len l)) l.

(** The open run, when there is one, began before the current index. *)
Definition open_before (start : option Z) (i : Z) : Prop :=
  match start with
  | Some s => s < i
  | None => True
  end.

(** The samples taken from [cursor] on: [n] of them, [step] apart. *)
Fixpoint on_step (step : Z) (n : nat) (cursor : Models.datetime)
  : list Models.datetime :=
  match n with
  | O => []
  | S n' => cursor :: on_step step n' (Models.dt_add cursor step)
  end.

(** How many times the sampling loop appends, starting from [cursor]. *)
Definition rounds (set_dt : Models.datetime) (step : Z)
    (cursor : Models.datetime) : nat :=
  if Models.dt_leb cursor set_dt
  then Z.to_nat ((Models.instant set_dt - Models.instant cursor) / step + 1)
  else 0%nat.

(** The value that the mask comprehension computes at index [i]. *)
Definition visible_b (config : Config.Config) (iss_alt_deg sun_alt_deg : list Q)
    (iss_sunlit : list bool) (i : Z) : bool :=
  Utils.Qge_bool (item 0%Q iss_alt_deg i) (Config.min_elev_deg config)
  && Qle_bool (item 0%Q sun_alt_deg i) (Config.twilight_deg config)
  && item false iss_sunlit i.


(** The non-blank lines of a TLE document, stripped, as [_parse_tle]
    scans them. *)
Definition tle_lines (text : string) : list string :=
  map Py.strip (filter Tle.nonblank (Py.splitlines text)).

(** The record that begins at line [i], when there is one: a name line
    equal to [target] up to case, then the two element lines. *)
Definition record_at (lines : list string) (target : string) (i : Z)
  : option Models.TLE :=
  match nth_error lines (Z.to_nat i), nth_error lines (Z.to_nat (i + 1)),
        nth_error lines (Z.to_nat (i + 2)) with
  | Some sat_name, Some l1, Some l2 =>
      if String.eqb (Py.lower sat_name) target
         && Py.startswith l1 "1 " && Py.startswith l2 "2 "
      then Some {| Models.name := sat_name; Models.line1 := l1;
                   Models.line2 := l2 |}
      else None
  | _, _, _ => None
  end.

(** Every request fails with a request exception. *)
Definition unreachable (server : Tle.Server) : Prop :=
  forall sent url, exists e,
    server sent url = Py.Raise e /\ Py.is_request_exception e = true.

(** The first record among the [n] positions from [a] on. *)
Fixpoint first_record (lines : list string) (target : string) (a : Z)
    (n : nat) : option Models.TLE :=
  match n with
  | O => None
  | S n' =>
      match record_at lines target a with
      | Some tle => Some tle
      | None => first_record lines target (a + 1) n'
      end
  end.

(** The error of a document without the requested record. *)
Definition not_found (name source_url : string) : Py.exn :=
  Py.TLEFetchError ("TLE '" ++ name ++ "' not found in " ++ source_url).

(** The UTC value of a [datetime] that may be naive: [_single_utc_datetime]
    reads a naive value as UTC. *)
Definition utc_of (d : Models.any_datetime) : Models.datetime :=
  match d with
  | Models.Naive wall_clock =>
      {| Models.instant := wall_clock; Models.tzinfo := Models.UTC |}
  | Models.Aware a => Models.astimezone a Models.UTC
  end.

(** What holds of every window that the assembler emits. *)
Definition valid_window (config : Config.Config) (loc : Models.Location)
    (w : Models.VisibilityWindow) : Prop :=
  Models.instant (Models.start_local w) <= Models.instant (Models.end_local w) /\
  Models.duration w
  = Models.instant (Models.end_local w) - Models.instant (Models.start_local w) /\
  (inject_Z (Config.min_window_seconds config)
   <= Models.total_seconds (Models.duration w))%Q /\
  (Config.min_elev_deg config <= Models.peak_elevation_deg w)%Q /\
  Models.tzinfo (Models.start_local w) = Models.timezone loc /\
  Models.tzinfo (Models.end_local w) = Models.timezone loc /\
  Models.tzinfo (Models.peak_local w) = Models.timezone loc /\
  Models.visibility_stars w
  = Predictor._visibility_stars (Models.peak_elevation_deg w)
      (Models.total_seconds (Models.duration w)) /\
  1 <= Models.visibility_stars w <= 5 /\
  Models.start_direction w = compass16 (Models.start_azimuth_deg w) /\
  Models.peak_direction w = compass16 (Models.peak_azimuth_deg w) /\
  Models.end_direction w = compass16 (Models.end_azimuth_deg w).




(** The check of [stars_text] on a pair of ratings: equal texts only for
    equal ratings. *)
Definition stars_distinct (a b : Z) : bool :=
  match Utils.stars_text a, Utils.stars_text b with
  | Py.Ok x, Py.Ok y => implb (String.eqb x y) (a =? b)
  | _, _ => true
  end.

(** The number of indices that a list of spans holds. *)
Definition spans_size (spans : list (Z * Z)) : Z :=
  fold_right (fun span total => snd span - fst span + 1 + total) 0 spans.

(** The number of true values of a mask. *)
Definition count_true (mask : list bool) : Z :=
  Z.of_nat (count_occ Bool.bool_dec mask true).

(** The first window ends no later than the second begins. *)
Definition before (w1 w2 : Models.VisibilityWindow) : Prop :=
  Models.instant (Models.end_local w1) <= Models.instant (Models.start_local w2).

(** The start, peak and end of the window are at the instants of three
    samples, in that order of index. *)
Definition on_samples (sample_times_utc : list Models.datetime)
    (w : Models.VisibilityWindow) : Prop :=
  exists s p e,
    0 <= s <= p /\ p <= e < Py.len sample_times_utc /\
    Models.instant (Models.start_local w)
    = Models.instant (item epoch sample_times_utc s) /\
    Models.instant (Models.peak_local w)
    = Models.instant (item epoch sample_times_utc p) /\
    Models.instant (Models.end_local w)
    = Models.instant (item epoch sample_times_utc e).

(** The window lies within the two instants, its peak within itself. *)
Definition within (lo hi : Z) (w : Models.VisibilityWindow) : Prop :=
  lo <= Models.instant (Models.start_local w) /\
  Models.instant (Models.start_local w) <= Models.instant (Models.peak_local w) /\
  Models.instant (Models.peak_local w) <= Models.instant (Models.end_local w) /\
  Models.instant (Models.end_local w) <= hi.




(* ===================================================================== *)
(** * The visibility scorer                                               *)
(* ===================================================================== *)

Section Scorer.
Import Utils Predictor.

Lemma Qge_bool_point (t x : Q) :
  (if Qge_bool x t then 1 else 0) = point t x.
Proof.
  unfold Qge_bool, point.
  destruct (Qlt_le_dec x t) as [Hlt | Hle].
  - destruct (Qle_bool t x) eqn:E; [| reflexivity].
    apply Qle_bool_iff in E. exfalso. apply (Qlt_not_le _ _ Hlt E).
  - apply Qle_bool_iff in Hle. now rewrite Hle.
Qed.

Lemma point_range (t x : Q) : 0 <= point t x <= 1.
Proof. unfold point. destruct (Qlt_le_dec x t); lia. Qed.

Lemma point_mono (t x y : Q) : (x <= y)%Q -> point t x <= point t y.
Proof.
  intros Hxy. unfold point.
  destruct (Qlt_le_dec x t), (Qlt_le_dec y t); try lia.
  exfalso. apply (Qlt_not_le y t); [assumption |].
  apply Qle_trans with x; assumption.
Qed.

Lemma stars_unfold (p d : Q) : _visibility_stars p d = score_spec p d.
Proof.
  unfold _visibility_stars, score_spec.
  rewrite <- !Qge_bool_point.
  destruct (Qge_bool p 20), (Qge_bool p 40), (Qge_bool p 65),
    (Qge_bool d 120); reflexivity.
Qed.

End Scorer.

(** C5.  The score is 1 plus one point for each of peak elevation >= 20,
    >= 40, >= 65 and duration >= 120, it lies in [1, 5], it is monotonic
    non-decreasing in both arguments, and it takes the five listed
    values. *)
Theorem C5_visibility_score :
  (forall p d : Q,
      Predictor._visibility_stars p d = score_spec p d /\
      Predictor._visibility_stars p d = Z.max 1 (Z.min (score_spec p d) 5) /\
      1 <= Predictor._visibility_stars p d <= 5) /\
  (forall p p' d d' : Q,
      (p <= p')%Q -> (d <= d')%Q ->
      Predictor._visibility_stars p d <= Predictor._visibility_stars p' d') /\
  Predictor._visibility_stars 10 30 = 1 /\
  Predictor._visibility_stars 25 30 = 2 /\
  Predictor._visibility_stars 45 30 = 3 /\
  Predictor._visibility_stars 70 30 = 4 /\
  Predictor._visibility_stars 70 240 = 5.
Proof.
  split; [| split; [| repeat split]].
  - intros p d. rewrite stars_unfold. unfold score_spec.
    pose proof (point_range 20 p). pose proof (point_range 40 p).
    pose proof (point_range 65 p). pose proof (point_range 120 d).
    repeat split; lia.
  - intros p p' d d' Hp Hd. rewrite !stars_unfold. unfold score_spec.
    pose proof (point_mono 20 _ _ Hp). pose proof (point_mono 40 _ _ Hp).
    pose proof (point_mono 65 _ _ Hp). pose proof (point_mono 120 _ _ Hd).
    lia.
Qed.

Lemma C5_visibility_score_witness :
  Predictor._visibility_stars 25 30 <= Predictor._visibility_stars 70 240.
Proof.
  apply (proj1 (proj2 C5_visibility_score) 25%Q 70%Q 30%Q 240%Q);
    unfold Qle; simpl; lia.
Defined.

(** C10.  The scorer of [utils] and the static method of the predictor
    return the same score on every pair of arguments. *)
Theorem C10_scorers_agree (peak_elevation_deg duration_seconds : Q) :
  Utils.visibility_stars peak_elevation_deg duration_seconds =
  Predictor._visibility_stars peak_elevation_deg duration_seconds.
Proof.
  unfold Utils.visibility_stars, Predictor._visibility_stars.
  destruct (Utils.Qge_bool peak_elevation_deg 20),
    (Utils.Qge_bool peak_elevation_deg 40),
    (Utils.Qge_bool peak_elevation_deg 65),
    (Utils.Qge_bool duration_seconds 120); reflexivity.
Qed.

(* ===================================================================== *)
(** * The span extractor                                                  *)
(* ===================================================================== *)

Section SpanExtractor.
Import Py Utils.

Lemma range_cons (a : Z) (n : nat) :
  map (fun k => a + Z.of_nat k) (seq 0 (S n)) =
  a :: map (fun k => (a + 1) + Z.of_nat k) (seq 0 n).
Proof.
  cbn [seq map]. f_equal; [lia |].
  rewrite <- seq_shift, map_map. apply map_ext. intros k. lia.
Qed.

Lemma range_length (a b : Z) : length (range a b) = Z.to_nat (b - a).
Proof. unfold range. now rewrite length_map, length_seq. Qed.

Lemma range_unfold (a b : Z) :
  a < b -> range a b = a :: range (a + 1) b.
Proof.
  intros Hab. unfold range.
  replace (Z.to_nat (b - a)) with (S (Z.to_nat (b - (a + 1)))) by lia.
  apply range_cons.
Qed.

Lemma range_nil (a b : Z) : b <= a -> range a b = [].
Proof.
  intros Hab. unfold range. now replace (Z.to_nat (b - a)) with 0%nat by lia.
Qed.

Lemma enumerate_from_cons {A : Type} (a : Z) (x : A) (l : list A) :
  enumerate_from a (x :: l) = (a, x) :: enumerate_from (a + 1) l.
Proof.
  unfold enumerate_from, len. rewrite range_unfold by (cbn [length]; lia).
  cbn [combine length]. do 3 f_equal. lia.
Qed.

Lemma span_loop_spec (mask : list bool) :
  forall (a : Z) (spans : list (Z * Z)) (start : option Z),
    (let '(spans', start') :=
       fold_left span_step (enumerate_from a mask) (spans, start) in
     match start' with
     | Some s => spans' ++ [(s, a + len mask - 1)]
     | None => spans'
     end) = spans ++ spans_from a start mask.
Proof.
  induction mask as [| value rest IH]; intros a spans start.
  - unfold enumerate_from. rewrite combine_nil. cbn.
    destruct start; [| now rewrite app_nil_r].
    do 3 f_equal. unfold len. cbn [length]. lia.
  - rewrite enumerate_from_cons. cbn [fold_left span_step spans_from].
    replace (a + len (value :: rest) - 1) with (a + 1 + len rest - 1)
      by (unfold len; cbn [length]; lia).
    destruct value, start as [s |]; rewrite IH; try reflexivity.
    now rewrite <- app_assoc.
Qed.

Lemma contiguous_true_spans_spans_from (mask : list bool) :
  contiguous_true_spans mask = spans_from 0 None mask.
Proof.
  unfold contiguous_true_spans, enumerate.
  pose proof (span_loop_spec mask 0 [] None) as H.
  unfold enumerate_from in H. cbn [Z.add app] in H. exact H.
Qed.

Lemma open_before_next (start : option Z) (i : Z) :
  open_before start i -> open_before start (i + 1).
Proof. destruct start; cbn; lia. Qed.

Lemma len_cons {A : Type} (x : A) (l : list A) : len (x :: l) = len l + 1.
Proof. unfold len. cbn [length]. lia. Qed.

Lemma len_nonneg {A : Type} (l : list A) : 0 <= len l.
Proof. unfold len. lia. Qed.

Lemma spans_from_bounds (mask : list bool) :
  forall (i : Z) (start : option Z),
    open_before start i ->
    Forall (fun sp =>
              fst sp <= snd sp < i + len mask /\
              match start with
              | Some s => fst sp = s \/ i < fst sp
              | None => i <= fst sp
              end)
           (spans_from i start mask).
Proof.
  induction mask as [| value rest IH]; intros i start Hopen.
  - destruct start as [s |]; cbn in *; constructor; [| constructor].
    cbn. unfold len. cbn. lia.
  - cbn [spans_from]. rewrite len_cons.
    destruct value, start as [s |]; cbn in Hopen.
    + specialize (IH (i + 1) (Some s)). cbn in IH.
      eapply List.Forall_impl; [| apply IH; lia]. cbn. intros sp. lia.
    + specialize (IH (i + 1) (Some i)). cbn in IH.
      eapply List.Forall_impl; [| apply IH; lia]. cbn. intros sp. lia.
    + constructor.
      * cbn. pose proof (len_nonneg rest). lia.
      * specialize (IH (i + 1) None I).
        eapply List.Forall_impl; [| exact IH]. cbn. intros sp. lia.
    + specialize (IH (i + 1) None I).
      eapply List.Forall_impl; [| exact IH]. cbn. intros sp. lia.
Qed.

Lemma spans_from_sorted (mask : list bool) :
  forall (i : Z) (start : option Z),
    open_before start i -> StronglySorted gap (spans_from i start mask).
Proof.
  induction mask as [| value rest IH]; intros i start Hopen.
  - destruct start; cbn; repeat constructor.
  - cbn [spans_from].
    destruct value, start as [s |]; cbn in Hopen;
      try (apply IH; cbn; lia).
    constructor; [apply IH; exact I |].
    pose proof (spans_from_bounds rest (i + 1) None I) as Hb.
    eapply List.Forall_impl; [| exact Hb]. unfold gap. cbn. intros sp. lia.
Qed.

Lemma nth_error_cons_Z {A : Type} (x : A) (l : list A) (i j : Z) :
  i <= j ->
  nth_error (x :: l) (Z.to_nat (j - i)) =
  if j =? i then Some x else nth_error l (Z.to_nat (j - (i + 1))).
Proof.
  intros Hij. destruct (Z.eqb_spec j i) as [-> | Hne].
  - now rewrite Z.sub_diag.
  - replace (Z.to_nat (j - i)) with (S (Z.to_nat (j - (i + 1)))) by lia.
    reflexivity.
Qed.

(** The indices covered by the spans: those of the open run, and the true
    indices of the rest of the mask. *)
Lemma spans_from_cover (mask : list bool) :
  forall (i : Z) (start : option Z) (j : Z),
    open_before start i ->
    Exists (fun sp => fst sp <= j <= snd sp) (spans_from i start mask) <->
    match start with
    | Some s => s <= j < i
    | None => False
    end \/ (i <= j /\ nth_error mask (Z.to_nat (j - i)) = Some true).
Proof.
  induction mask as [| value rest IH]; intros i start j Hopen.
  - destruct start as [s |]; cbn.
    + rewrite Exists_cons, Exists_nil. cbn.
      destruct (Z.to_nat (j - i)); cbn; intuition (try lia; try discriminate).
    + rewrite Exists_nil.
      destruct (Z.to_nat (j - i)); cbn; intuition discriminate.
  - cbn [spans_from].
    destruct value, start as [s |]; cbn in Hopen;
      [ rewrite (IH (i + 1) (Some s)) by (cbn; lia)
      | rewrite (IH (i + 1) (Some i)) by (cbn; lia)
      | rewrite Exists_cons, (IH (i + 1) None) by exact I; cbn [fst snd]
      | rewrite (IH (i + 1) None) by exact I ];
      (destruct (Z_le_gt_dec i j) as [Hij | Hij];
       [ rewrite (nth_error_cons_Z _ rest i j Hij);
         destruct (Z.eqb_spec j i)
       | ]);
      intuition (try lia; try discriminate; try congruence).
Qed.

Lemma spans_from_all_true (mask : list bool) :
  forall (i s : Z),
    forallb id mask = true ->
    spans_from i (Some s) mask = [(s, i + len mask - 1)].
Proof.
  induction mask as [| value rest IH]; intros i s Hall.
  - cbn. do 2 f_equal. unfold len. cbn. lia.
  - cbn in Hall. apply andb_true_iff in Hall as [Hv Hrest].
    unfold id in Hv. subst value. cbn [spans_from].
    rewrite IH by assumption. rewrite len_cons. do 2 f_equal. lia.
Qed.

Lemma mask_at_true (mask : list bool) (j : Z) :
  mask_at mask j = true <->
  0 <= j /\ nth_error mask (Z.to_nat (j - 0)) = Some true.
Proof.
  unfold mask_at. rewrite Z.sub_0_r, andb_true_iff, Z.leb_le.
  destruct (nth_error mask (Z.to_nat j)) as [[|] |];
    intuition (try discriminate; try congruence).
Qed.

Lemma sorted_two {A : Type} (R : A -> A -> Prop) (l : list A) (x y : A) :
  StronglySorted R l -> In x l -> In y l -> x = y \/ R x y \/ R y x.
Proof.
  induction 1 as [| a l Hsorted IH Hall]; intros Hx Hy; [contradiction |].
  rewrite List.Forall_forall in Hall.
  destruct Hx as [-> | Hx], Hy as [-> | Hy]; auto.
Qed.

Lemma sorted_last {A : Type} (R : A -> A -> Prop) (l : list A) (x : A) :
  StronglySorted R l -> In x l -> (forall y, In y l -> ~ R x y) ->
  exists l', l = l' ++ [x].
Proof.
  induction 1 as [| a l Hsorted IH Hall]; intros Hx Hmax; [contradiction |].
  rewrite List.Forall_forall in Hall.
  destruct Hx as [-> | Hx].
  - destruct l as [| y l]; [now exists [] |].
    exfalso. apply (Hmax y); [right; now left |]. apply Hall. now left.
  - destruct IH as [l' ->]; [assumption | |].
    + intros y Hy. apply Hmax. now right.
    + now exists (a :: l').
Qed.

End SpanExtractor.

Lemma spans_cover_iff (mask : list bool) (j : Z) :
  mask_at mask j = true <->
  exists s e, In (s, e) (Utils.contiguous_true_spans mask) /\ s <= j <= e.
Proof.
  rewrite contiguous_true_spans_spans_from, mask_at_true.
  pose proof (spans_from_cover mask 0 None j I) as Hcover.
  rewrite List.Exists_exists in Hcover. split.
  - intros Htrue. destruct (proj2 Hcover) as ([s e] & Hin & Hj); eauto.
  - intros (s & e & Hin & Hj).
    destruct (proj1 Hcover) as [[] | Htrue]; [| exact Htrue].
    exists (s, e). auto.
Qed.

Lemma spans_in_bounds (mask : list bool) (s e : Z) :
  In (s, e) (Utils.contiguous_true_spans mask) ->
  0 <= s <= e /\ e < Py.len mask.
Proof.
  rewrite contiguous_true_spans_spans_from. intros Hin.
  pose proof (spans_from_bounds mask 0 None I) as Hb.
  rewrite List.Forall_forall in Hb. specialize (Hb _ Hin). cbn in Hb. lia.
Qed.

Lemma spans_sorted (mask : list bool) :
  StronglySorted gap (Utils.contiguous_true_spans mask).
Proof.
  rewrite contiguous_true_spans_spans_from.
  apply spans_from_sorted. exact I.
Qed.

(** An index next to a span on either side is not true. *)
Lemma spans_maximal (mask : list bool) (s e j : Z) :
  In (s, e) (Utils.contiguous_true_spans mask) ->
  j = s - 1 \/ j = e + 1 -> mask_at mask j = false.
Proof.
  intros Hin Hj. destruct (mask_at mask j) eqn:Htrue; [| reflexivity].
  exfalso. apply spans_cover_iff in Htrue as (s' & e' & Hin' & Hj').
  pose proof (spans_in_bounds mask s e Hin).
  pose proof (spans_in_bounds mask s' e' Hin').
  destruct (sorted_two gap _ _ _ (spans_sorted mask) Hin Hin')
    as [Heq | [Hgap | Hgap]]; unfold gap in *; cbn in *.
  - inversion Heq; subst. lia.
  - lia.
  - lia.
Qed.

(** C2.  The spans returned for a mask are exactly its maximal runs of
    true values: each span lies within the mask, covers only true indices
    and has no true index next to it; every true index lies in a span; the
    spans are in ascending order with at least one index between two of
    them.  An empty mask gives no span, a non-empty all-true mask the
    single span (0, N-1), a mask whose last value is true a last span
    ending at N-1, and the documented example evaluates as documented. *)
Theorem C2_span_extractor :
  (forall mask : list bool,
      let spans := Utils.contiguous_true_spans mask in
      let n := Py.len mask in
      (forall s e, In (s, e) spans ->
         0 <= s <= e /\ e < n /\
         (forall j, s <= j <= e -> mask_at mask j = true) /\
         mask_at mask (s - 1) = false /\ mask_at mask (e + 1) = false) /\
      (forall j, mask_at mask j = true ->
         exists s e, In (s, e) spans /\ s <= j <= e) /\
      StronglySorted gap spans /\
      (mask <> [] -> forallb id mask = true -> spans = [(0, n - 1)]) /\
      (mask_at mask (n - 1) = true ->
         exists spans' s, spans = spans' ++ [(s, n - 1)])) /\
  Utils.contiguous_true_spans [] = [] /\
  Utils.contiguous_true_spans [false; true; true; false; true]
    = [(1, 2); (4, 4)].
Proof.
  split; [| split; reflexivity].
  intros mask spans n. subst spans n. repeat split.
  - apply (spans_in_bounds mask s e H).
  - apply (spans_in_bounds mask s e H).
  - apply (spans_in_bounds mask s e H).
  - intros j Hj. apply spans_cover_iff. eauto.
  - apply (spans_maximal mask s e); auto.
  - apply (spans_maximal mask s e); auto.
  - intros j Hj. now apply spans_cover_iff.
  - apply spans_sorted.
  - intros Hne Hall. rewrite contiguous_true_spans_spans_from.
    destruct mask as [| value rest]; [contradiction |].
    cbn in Hall. apply andb_true_iff in Hall as [Hv Hrest].
    unfold id in Hv. subst value. cbn [spans_from].
    rewrite spans_from_all_true by assumption.
    rewrite len_cons. do 2 f_equal. lia.
  - intros Hlast.
    apply spans_cover_iff in Hlast as (s & e & Hin & Hj).
    pose proof (spans_in_bounds mask s e Hin) as Hb.
    assert (e = Py.len mask - 1) as -> by lia.
    destruct (sorted_last gap _ _ (spans_sorted mask) Hin) as [spans' Heq].
    + intros [s' e'] Hin' Hgap. unfold gap in Hgap. cbn in Hgap.
      pose proof (spans_in_bounds mask s' e' Hin'). lia.
    + eauto.
Qed.

Lemma C2_span_extractor_witness :
  Utils.contiguous_true_spans [true; true; true] = [(0, 2)].
Proof.
  apply (proj1 (proj2 (proj2 (proj2 (proj1 C2_span_extractor [true; true; true]))))).
  - discriminate.
  - reflexivity.
Defined.

(* ===================================================================== *)
(** * The compass direction mapper                                        *)
(* ===================================================================== *)

Section Compass.
Import Py Utils.
Local Open Scope Q_scope.


Lemma floordiv_bounds (x b : Q) :
  0 < b ->
  inject_Z (Qfloordiv x b) * b <= x /\ x < (inject_Z (Qfloordiv x b) + 1) * b.
Proof.
  intros Hb. unfold Qfloordiv.
  pose proof (Qfloor_le (x / b)) as Hfl. pose proof (Qlt_floor (x / b)) as Hfu.
  rewrite inject_Z_plus in Hfu. change (inject_Z 1) with 1 in Hfu.
  assert (x == x / b * b) as Hx by (field; lra).
  split.
  - rewrite Hx at 2. apply Qmult_le_compat_r; lra.
  - rewrite Hx at 1. apply Qmult_lt_compat_r; lra.
Qed.

Lemma Qmod_range (x : Q) : 0 <= Qmod x 360 /\ Qmod x 360 < 360.
Proof.
  unfold Qmod. destruct (floordiv_bounds x 360) as [Hlo Hhi]; [lra |].
  unfold Qfloordiv in *. split; lra.
Qed.


Lemma labels_map_cases (points : Z) (labels : list string) :
  labels_map points = Some labels ->
  (points = 4 \/ points = 8 \/ points = 16)%Z /\ len labels = points.
Proof.
  unfold labels_map.
  destruct (Z.eqb_spec points 4) as [-> | H4];
    [intros [= <-]; split; [auto | reflexivity] |].
  destruct (Z.eqb_spec points 8) as [-> | H8];
    [intros [= <-]; split; [auto | reflexivity] |].
  destruct (Z.eqb_spec points 16) as [-> | H16];
    [intros [= <-]; split; [auto | reflexivity] |].
  discriminate.
Qed.


Lemma index_in_range {A : Type} (l : list A) (i : Z) :
  (0 <= i < len l)%Z ->
  exists a, index l i = Ok a /\ nth_error l (Z.to_nat i) = Some a.
Proof.
  intros Hi. unfold index, getitem.
  destruct (Z.leb_spec 0 i); [| lia]. destruct (Z.ltb_spec i (len l)); [| lia].
  cbn [andb].
  destruct (nth_error l (Z.to_nat i)) as [a |] eqn:E; [eauto |].
  apply nth_error_None in E. unfold len in Hi. lia.
Qed.

(** The quotient of the half-shifted azimuth lies between 0 and [points]. *)
Lemma bucket_quotient_range (b P q norm : Q) :
  0 < b -> P * b == 360 -> 0 <= norm -> norm < 360 ->
  q * b <= norm + b / 2 -> norm + b / 2 < (q + 1) * b ->
  -1 < q /\ q < P + 1.
Proof.
  unfold Qdiv. change (/ 2) with (1 # 2). intros. split; nra.
Qed.

Lemma bucket_size_facts (points : Z) :
  (points = 4 \/ points = 8 \/ points = 16)%Z ->
  0 < 360 / inject_Z points /\ inject_Z points * (360 / inject_Z points) == 360.
Proof. intros [-> | [-> | ->]]; split; reflexivity. Qed.

Lemma az_to_cardinal_bucket (az_deg : Q) (points : Z) (labels : list string) :
  labels_map points = Some labels ->
  exists (k m : Z) (label : string),
    (0 <= k < points)%Z /\
    nth_error labels (Z.to_nat k) = Some label /\
    az_to_cardinal az_deg points = Ok label /\
    in_bucket points k (az_deg - 360 * inject_Z m).
Proof.
  intros Hlabels. destruct (labels_map_cases _ _ Hlabels) as [Hpoints Hlen].
  unfold az_to_cardinal, in_bucket. rewrite Hlabels.
  destruct (bucket_size_facts points Hpoints) as [Hb HPb].
  set (b := 360 / inject_Z points) in *.
  pose proof (Qmod_range az_deg) as [Hn0 Hn1].
  assert (Qmod az_deg 360 == az_deg - 360 * inject_Z (Qfloor (az_deg / 360)))
    as Hnorm by reflexivity.
  set (f := Qfloor (az_deg / 360)) in *.
  set (norm := Qmod az_deg 360) in *.
  destruct (floordiv_bounds (norm + b / 2) b Hb) as [Hq0 Hq1].
  set (q := Qfloordiv (norm + b / 2) b) in *.
  destruct (bucket_quotient_range b (inject_Z points) (inject_Z q) norm)
    as [Hqlo Hqhi]; try assumption.
  assert (0 <= q <= points)%Z as Hq.
  { change (-1) with (inject_Z (-1)) in Hqlo.
    change 1 with (inject_Z 1) in Hqhi. rewrite <- inject_Z_plus in Hqhi.
    rewrite <- Zlt_Qlt in Hqlo, Hqhi. lia. }
  assert (points > 0)%Z as Hpos by lia.
  clearbody b f norm q. cbv zeta.
  unfold Qdiv in *. change (/ 2) with (1 # 2) in *.
  destruct (Z.eq_dec q points) as [Heq | Hne].
  - (* the last half bucket wraps to the first label *)
    rewrite Heq, Z_mod_same_full.
    destruct (index_in_range labels 0) as (label & Hidx & Hnth); [lia |].
    exists 0%Z, (f + 1)%Z, label.
    rewrite inject_Z_plus. change (inject_Z 1) with 1.
    change (inject_Z 0) with 0. rewrite Heq in Hq0.
    repeat split; try lia; try assumption; lra.
  - rewrite Z.mod_small by lia.
    destruct (index_in_range labels q) as (label & Hidx & Hnth); [lia |].
    exists q, f, label.
    repeat split; try lia; try assumption; lra.
Qed.


End Compass.



(* ===================================================================== *)
(** * The pass sampler                                                    *)
(* ===================================================================== *)

Section PassSampler.
Import Py Models Config Predictor.

Variables (set_dt : datetime) (step : Z).
Hypothesis step_pos : 0 < step.

Lemma rounds_next (cursor : datetime) :
  dt_leb cursor set_dt = true ->
  rounds set_dt step cursor = S (rounds set_dt step (dt_add cursor step)).
Proof using step_pos.
  unfold rounds, dt_leb. cbn [instant dt_add]. intros Hle. rewrite Hle.
  apply Z.leb_le in Hle.
  destruct (Z.leb_spec (instant cursor + step) (instant set_dt)) as [Hnext | Hnext].
  - replace (instant set_dt - instant cursor)
      with ((instant set_dt - (instant cursor + step)) + 1 * step) by lia.
    rewrite Z.div_add by lia.
    assert (0 <= (instant set_dt - (instant cursor + step)) / step)
      by (apply Z.div_pos; lia).
    lia.
  - rewrite Z.div_small by lia. reflexivity.
Qed.

Lemma sample_loop_spec (n : nat) :
  forall (fuel : nat) (cursor : datetime) (samples_utc : list datetime),
    n = rounds set_dt step cursor -> (n < fuel)%nat ->
    sample_loop fuel cursor set_dt step samples_utc
    = Ok (samples_utc ++ on_step step n cursor).
Proof using step_pos.
  induction n as [| n IH]; intros fuel cursor samples_utc Hn Hfuel;
    (destruct fuel as [| fuel]; [lia |]); cbn [sample_loop on_step].
  - destruct (dt_leb cursor set_dt) eqn:Hle.
    + rewrite (rounds_next _ Hle) in Hn. discriminate.
    + now rewrite app_nil_r.
  - destruct (dt_leb cursor set_dt) eqn:Hle.
    + rewrite (rounds_next _ Hle) in Hn. injection Hn as Hn.
      rewrite (IH fuel (dt_add cursor step)) by (assumption || lia).
      now rewrite <- app_assoc.
    + unfold rounds in Hn. rewrite Hle in Hn. discriminate.
Qed.

Lemma on_step_instants (n : nat) :
  forall cursor : datetime,
    map instant (on_step step n cursor)
    = map (fun j => instant cursor + j * step) (range 0 (Z.of_nat n)).
Proof.
  induction n as [| n IH]; intros cursor; [reflexivity |].
  cbn [on_step map]. rewrite IH, (range_unfold 0 (Z.of_nat (S n))) by lia.
  cbn [map instant dt_add].
  f_equal; [lia |].
  replace (Z.of_nat (S n)) with (Z.of_nat n + 1) by lia.
  unfold range. rewrite !map_map.
  replace (Z.to_nat (Z.of_nat n + 1 - (0 + 1))) with (Z.to_nat (Z.of_nat n - 0)) by lia.
  apply map_ext. intros k. lia.
Qed.

Lemma on_step_length (n : nat) (cursor : datetime) :
  length (on_step step n cursor) = n.
Proof. revert cursor. induction n; intros; cbn; auto. Qed.

Lemma on_step_sorted (n : nat) :
  forall cursor : datetime,
    StronglySorted Z.le (map instant (on_step step n cursor)) /\
    Forall (fun t => instant cursor <= t <= instant cursor + (Z.of_nat n - 1) * step)
           (map instant (on_step step n cursor)).
Proof using step_pos.
  induction n as [| n IH]; intros cursor; cbn [on_step map].
  - split; constructor.
  - destruct (IH (dt_add cursor step)) as [Hsorted Hall].
    cbn [instant dt_add] in Hall.
    split; constructor; try assumption.
    + eapply List.Forall_impl; [| exact Hall]. cbn. intros t. lia.
    + nia.
    + eapply List.Forall_impl; [| exact Hall]. cbn. intros t. nia.
Qed.

Lemma on_step_last (n : nat) :
  forall (cursor d : datetime),
    instant (List.last (on_step step (S n) cursor) d) = instant cursor + Z.of_nat n * step.
Proof.
  induction n as [| n IH]; intros cursor d.
  - cbn. lia.
  - change (on_step step (S (S n)) cursor)
      with (cursor :: on_step step (S n) (dt_add cursor step)).
    change (List.last (cursor :: on_step step (S n) (dt_add cursor step)) d)
      with (List.last (on_step step (S n) (dt_add cursor step)) d).
    rewrite IH. cbn [instant dt_add]. lia.
Qed.

End PassSampler.

Lemma nth_pred_length {A : Type} (d : A) (l : list A) :
  nth (length l - 1) l d = List.last l d.
Proof.
  induction l as [| x [| y l] IH]; try reflexivity.
  change (List.last (x :: y :: l) d) with (List.last (y :: l) d).
  rewrite <- IH. cbn [length].
  replace (S (S (length l)) - 1)%nat with (S (S (length l) - 1))%nat by lia.
  reflexivity.
Qed.

Lemma index_last {A : Type} (l : list A) (d : A) :
  l <> [] -> Py.index l (-1) = Py.Ok (List.last l d).
Proof.
  intros Hne. unfold Py.index, Py.getitem.
  assert (1 <= Py.len l) as Hlen
    by (destruct l; [contradiction | unfold Py.len; cbn [length]; lia]).
  destruct (Z.leb_spec 0 (-1)); [lia |]. cbn [andb].
  destruct (Z.leb_spec (- Py.len l) (-1)); [| lia].
  destruct (Z.ltb_spec (-1) 0); [| lia]. cbn [andb].
  replace (Z.to_nat (Py.len l + -1)) with (length l - 1)%nat
    by (unfold Py.len; lia).
  rewrite nth_error_nth' with (d := d) by (unfold Py.len in Hlen; lia).
  now rewrite nth_pred_length.
Qed.

Lemma sorted_snoc (l : list Z) (x : Z) :
  StronglySorted Z.le l -> Forall (fun t => t <= x) l ->
  StronglySorted Z.le (l ++ [x]).
Proof.
  induction 1 as [| a l Hsorted IH Hall]; intros Hle; cbn.
  - repeat constructor.
  - apply List.Forall_cons_iff in Hle as [Ha Hle].
    constructor; [auto |].
    apply List.Forall_app. split; [assumption | repeat constructor; assumption].
Qed.

Lemma range_snoc (k : Z) :
  0 <= k -> Py.range 0 (k + 1) = Py.range 0 k ++ [k].
Proof.
  intros Hk. unfold Py.range.
  replace (Z.to_nat (k + 1 - 0)) with (S (Z.to_nat (k - 0))) by lia.
  rewrite seq_S, map_app. cbn [map]. do 2 f_equal. lia.
Qed.

(** The samples of a pass, in closed form. *)
Lemma pass_samples_closed_form (config : Config.Config)
    (rise_dt set_dt : Models.datetime) :
  let R := Models.instant rise_dt in
  let S := Models.instant set_dt in
  let D := Models.timedelta_seconds (Config.sample_seconds config) in
  let k := (S - R) / D in
  R <= S -> 0 < D ->
  forall fuel : nat, (Z.to_nat k + 2 <= fuel)%nat ->
    exists samples : list Models.datetime,
      Predictor.pass_samples fuel config rise_dt set_dt = Py.Ok samples /\
      hd_error samples = Some rise_dt /\
      map Models.instant samples
      = map (fun j => R + j * D) (Py.range 0 (k + 1))
          ++ (if R + k * D =? S then [] else [S]).
Proof.
  intros R S D k HRS HD fuel Hfuel.
  assert (0 <= k) as Hk by (apply Z.div_pos; lia).
  assert (rounds set_dt D rise_dt = Datatypes.S (Z.to_nat k)) as Hrounds.
  { unfold rounds, Models.dt_leb. fold R S k.
    destruct (Z.leb_spec R S); [lia | lia]. }
  unfold Predictor.pass_samples. fold D.
  rewrite (sample_loop_spec set_dt D HD (Datatypes.S (Z.to_nat k)))
    by (auto || lia).
  cbn [Py.bind app].
  rewrite (index_last _ rise_dt) by discriminate. cbn [Py.bind].
  unfold Models.dt_eqb. rewrite on_step_last. fold R S.
  rewrite Z2Nat.id by assumption.
  pose proof (on_step_instants D (Datatypes.S (Z.to_nat k)) rise_dt) as Hinst.
  replace (Z.of_nat (Datatypes.S (Z.to_nat k))) with (k + 1) in Hinst by lia.
  fold R in Hinst.
  destruct (R + k * D =? S); cbn [negb]; eexists; (split; [reflexivity |]);
    (split; [reflexivity |]).
  - now rewrite app_nil_r.
  - now rewrite map_app, Hinst.
Qed.

(** C6.  For rise and set instants [R <= S] and a positive step [D], the
    sampling loop ends and yields [R, R + D, ..., R + k * D], the on-step
    instants that do not exceed [S], followed by [S] when [R + k * D] is
    not [S]; the sequence is non-decreasing, begins with the rise time,
    ends with [S], exceeds [S] nowhere, has at least two elements when
    [R < S], and has one element exactly when [R = S]. *)
Theorem C6_pass_sampler (config : Config.Config)
    (rise_dt set_dt : Models.datetime) :
  let R := Models.instant rise_dt in
  let S := Models.instant set_dt in
  let D := Models.timedelta_seconds (Config.sample_seconds config) in
  let k := (S - R) / D in
  R <= S -> 0 < Config.sample_seconds config ->
  exists fuel0 : nat, forall fuel : nat, (fuel0 <= fuel)%nat ->
    exists samples : list Models.datetime,
      Predictor.pass_samples fuel config rise_dt set_dt = Py.Ok samples /\
      let ts := map Models.instant samples in
      ts = map (fun j => R + j * D) (Py.range 0 (k + 1))
             ++ (if R + k * D =? S then [] else [S]) /\
      0 <= k /\ R + k * D <= S < R + (k + 1) * D /\
      StronglySorted Z.le ts /\
      Forall (fun t => t <= S) ts /\
      hd_error samples = Some rise_dt /\
      (exists init, ts = init ++ [S]) /\
      (R < S -> 2 <= Py.len samples) /\
      (Py.len samples = 1 <-> R = S).
Proof.
  intros R S D k HRS Hstep.
  assert (0 < D) as HD by (unfold D, Models.timedelta_seconds; lia).
  assert (0 <= k) as Hk by (apply Z.div_pos; lia).
  assert (R + k * D <= S < R + (k + 1) * D) as Hlast.
  { pose proof (Z.mul_div_le (S - R) D HD).
    pose proof (Z.mul_succ_div_gt (S - R) D HD). fold k in H, H0. lia. }
  exists (Z.to_nat k + 2)%nat. intros fuel Hfuel.
  destruct (pass_samples_closed_form config rise_dt set_dt HRS HD fuel Hfuel)
    as (samples & Hrun & Hhd & Hts).
  fold R S D k in Hts.
  exists samples. split; [exact Hrun |]. cbv zeta.
  pose proof (on_step_instants D (Datatypes.S (Z.to_nat k)) rise_dt) as Hinst.
  replace (Z.of_nat (Datatypes.S (Z.to_nat k))) with (k + 1) in Hinst by lia.
  fold R in Hinst.
  destruct (on_step_sorted D HD (Datatypes.S (Z.to_nat k)) rise_dt)
    as [Hsorted Hbound].
  rewrite Hinst in Hsorted, Hbound. fold R in Hbound.
  assert (Forall (fun t => t <= S)
                 (map (fun j => R + j * D) (Py.range 0 (k + 1)))) as Hle.
  { eapply List.Forall_impl; [| exact Hbound]. cbn. intros t. nia. }
  assert (Py.len samples
          = k + 1 + (if R + k * D =? S then 0 else 1)) as Hlen.
  { unfold Py.len. rewrite <- (length_map Models.instant), Hts.
    rewrite length_app, length_map, range_length.
    destruct (R + k * D =? S); cbn [length]; lia. }
  repeat split; try assumption; try lia.
  - rewrite Hts. destruct (R + k * D =? S).
    + now rewrite app_nil_r.
    + now apply sorted_snoc.
  - rewrite Hts. apply List.Forall_app. split; [assumption |].
    destruct (R + k * D =? S); repeat constructor. lia.
  - rewrite Hts. destruct (Z.eqb_spec (R + k * D) S) as [Heq | Hne].
    + rewrite app_nil_r, range_snoc, map_app by assumption. cbn [map].
      rewrite Heq. eauto.
    + eauto.
  - intros HltRS. rewrite Hlen.
    destruct (Z.eqb_spec (R + k * D) S) as [Heq | Hne]; [nia | lia].
  - rewrite Hlen.
    destruct (Z.eqb_spec (R + k * D) S) as [Heq | Hne]; nia.
  - intros Heq. rewrite Hlen.
    assert (k = 0) as -> by (unfold k; rewrite Heq, Z.sub_diag; reflexivity).
    destruct (Z.eqb_spec (R + 0 * D) S); lia.
Qed.

Lemma C6_pass_sampler_witness :
  exists fuel0 : nat, forall fuel : nat, (fuel0 <= fuel)%nat ->
    exists samples : list Models.datetime,
      Predictor.pass_samples fuel Config.default
        {| Models.instant := 0; Models.tzinfo := Models.UTC |}
        {| Models.instant := 25000000; Models.tzinfo := Models.UTC |}
      = Py.Ok samples /\
      map Models.instant samples = [0; 10000000; 20000000; 25000000].
Proof.
  destruct (C6_pass_sampler Config.default
              {| Models.instant := 0; Models.tzinfo := Models.UTC |}
              {| Models.instant := 25000000; Models.tzinfo := Models.UTC |})
    as [fuel0 Hfuel0].
  - cbn. lia.
  - cbn. lia.
  - exists fuel0. intros fuel Hfuel.
    destruct (Hfuel0 fuel Hfuel) as (samples & Hrun & Hts & _).
    exists samples. split; [exact Hrun | exact Hts].
Defined.

(* ===================================================================== *)
(** * The visibility predicate evaluator                                  *)
(* ===================================================================== *)

Section Predicate.
Import Py Models Config Predictor.

Lemma index_item {A : Type} (d : A) (l : list A) (i : Z) :
  0 <= i < len l -> index l i = Ok (item d l i).
Proof.
  intros Hi. destruct (index_in_range l i Hi) as (a & Hidx & Hnth).
  rewrite Hidx. f_equal. unfold item. symmetry. now apply nth_error_nth.
Qed.

Lemma mapM_range {B : Type} (f : Z -> result B) (g : Z -> B) (n : nat) :
  forall a : Z,
    (forall i, a <= i < a + Z.of_nat n -> f i = Ok (g i)) ->
    mapM f (range a (a + Z.of_nat n)) = Ok (map g (range a (a + Z.of_nat n))).
Proof.
  induction n as [| n IH]; intros a Hf.
  - rewrite range_nil by lia. reflexivity.
  - rewrite range_unfold by lia. cbn [mapM map].
    rewrite Hf by lia. cbn [bind].
    replace (a + Z.of_nat (S n)) with (a + 1 + Z.of_nat n) in * by lia.
    rewrite IH by (intros i Hi; apply Hf; lia). reflexivity.
Qed.

Lemma range_item (d : Z) (a b i : Z) :
  0 <= i < b - a -> nth (Z.to_nat i) (range a b) d = a + i.
Proof.
  intros Hi. unfold range.
  rewrite nth_indep with (d' := a + Z.of_nat 0)
    by (rewrite length_map, length_seq; lia).
  change (a + Z.of_nat 0) with ((fun k => a + Z.of_nat k) 0%nat).
  rewrite map_nth, seq_nth by lia. lia.
Qed.

Lemma visible_b_iff (config : Config) (iss_alt_deg sun_alt_deg : list Q)
    (iss_sunlit : list bool) (i : Z) :
  visible_b config iss_alt_deg sun_alt_deg iss_sunlit i = true <->
  visible config iss_alt_deg sun_alt_deg iss_sunlit i.
Proof.
  unfold visible_b, visible, Utils.Qge_bool.
  rewrite !andb_true_iff, !Qle_bool_iff. tauto.
Qed.

Lemma visible_at_spec (config : Config) (iss_alt_deg sun_alt_deg : list Q)
    (iss_sunlit : list bool) (i : Z) :
  0 <= i < len iss_alt_deg -> 0 <= i < len sun_alt_deg ->
  0 <= i < len iss_sunlit ->
  visible_at config iss_alt_deg sun_alt_deg iss_sunlit i
  = Ok (visible_b config iss_alt_deg sun_alt_deg iss_sunlit i).
Proof.
  intros Halt Hsun Hlit. unfold visible_at, visible_b.
  rewrite (index_item 0%Q), (index_item 0%Q), (index_item false) by assumption.
  cbn [bind].
  destruct (Utils.Qge_bool _ _); cbn [negb andb]; [| reflexivity].
  destruct (Qle_bool _ _); cbn [negb andb]; reflexivity.
Qed.

Lemma visibility_mask_spec (config : Config) (iss_alt_deg sun_alt_deg : list Q)
    (iss_sunlit : list bool) (n : Z) :
  0 <= n -> n = len iss_alt_deg -> n = len sun_alt_deg -> n = len iss_sunlit ->
  visibility_mask config iss_alt_deg sun_alt_deg iss_sunlit n
  = Ok (map (visible_b config iss_alt_deg sun_alt_deg iss_sunlit) (range 0 n)).
Proof.
  intros Hn Halt Hsun Hlit. unfold visibility_mask.
  replace n with (0 + Z.of_nat (Z.to_nat n)) at 1 2 by lia.
  apply mapM_range. intros i Hi. apply visible_at_spec; lia.
Qed.

Lemma same_length_true (n : Z) (a b c : list Q) (d : list bool) :
  same_length n a b c d = true <->
  n = len a /\ n = len b /\ n = len c /\ n = len d.
Proof.
  unfold same_length. rewrite !andb_true_iff, !Z.eqb_eq. lia.
Qed.

Lemma mask_at_map (g : Z -> bool) (n i : Z) :
  0 <= i < n -> mask_at (map g (range 0 n)) i = g i.
Proof.
  intros Hi. unfold mask_at.
  destruct (Z.leb_spec 0 i); [| lia]. cbn [andb].
  rewrite nth_error_nth' with (d := g 0)
    by (rewrite length_map, range_length; lia).
  rewrite map_nth, (range_item 0) by lia. reflexivity.
Qed.

End Predicate.

(** C3.  When the five arrays have the same length N, the mask has length
    N and is true at index i exactly when the elevation there is at least
    the minimum elevation, the solar elevation at most the twilight
    threshold, and the satellite sunlit; the spans of that mask are what
    the assembler then processes.  When the lengths differ, the call
    raises the size-mismatch error, whatever the arrays hold. *)
Theorem C3_visibility_mask (config : Config.Config) (loc : Models.Location)
    (sample_times_utc : list Models.datetime)
    (iss_alt_deg iss_az_deg sun_alt_deg : list Q) (iss_sunlit : list bool) :
  let n := Py.len sample_times_utc in
  (n = Py.len iss_alt_deg /\ n = Py.len iss_az_deg /\
   n = Py.len sun_alt_deg /\ n = Py.len iss_sunlit ->
   exists mask : list bool,
     Predictor.visibility_mask config iss_alt_deg sun_alt_deg iss_sunlit n
     = Py.Ok mask /\
     Py.len mask = n /\
     (forall i, 0 <= i < n ->
        mask_at mask i = true <->
        visible config iss_alt_deg sun_alt_deg iss_sunlit i) /\
     Predictor._windows_from_samples config loc sample_times_utc
       iss_alt_deg iss_az_deg sun_alt_deg iss_sunlit
     = if n =? 0 then Py.Ok []
       else Predictor.windows_loop config loc sample_times_utc
              iss_alt_deg iss_az_deg (Utils.contiguous_true_spans mask) []) /\
  (~ (n = Py.len iss_alt_deg /\ n = Py.len iss_az_deg /\
      n = Py.len sun_alt_deg /\ n = Py.len iss_sunlit) ->
   Predictor._windows_from_samples config loc sample_times_utc
     iss_alt_deg iss_az_deg sun_alt_deg iss_sunlit
   = Py.Raise (Py.PredictionError "Sample arrays must have the same length")).
Proof.
  intros n. split.
  - intros Hlen.
    pose proof (proj2 (same_length_true n _ _ _ _) Hlen) as Hsame.
    destruct Hlen as (Halt & Haz & Hsun & Hlit).
    assert (0 <= n) as Hn by apply len_nonneg.
    exists (map (visible_b config iss_alt_deg sun_alt_deg iss_sunlit)
                (Py.range 0 n)).
    pose proof (visibility_mask_spec config iss_alt_deg sun_alt_deg
                  iss_sunlit n Hn Halt Hsun Hlit) as Hmask.
    split; [exact Hmask |]. split; [| split].
    + unfold Py.len. rewrite length_map, range_length. lia.
    + intros i Hi. rewrite mask_at_map by assumption. apply visible_b_iff.
    + unfold Predictor._windows_from_samples. fold n. rewrite Hsame.
      cbn [negb]. destruct (n =? 0); [reflexivity |].
      rewrite Hmask. reflexivity.
  - intros Hlen. unfold Predictor._windows_from_samples. fold n.
    destruct (Predictor.same_length n iss_alt_deg iss_az_deg sun_alt_deg
                iss_sunlit) eqn:Hsame; [| reflexivity].
    apply same_length_true in Hsame. contradiction.
Qed.

Lemma C3_visibility_mask_witness :
  (exists mask : list bool,
      Predictor.visibility_mask Config.default [20; 5]%Q [-20; -20]%Q
        [true; true] 2 = Py.Ok mask /\
      Py.len mask = 2 /\
      (forall i, 0 <= i < 2 ->
         mask_at mask i = true <->
         visible Config.default [20; 5]%Q [-20; -20]%Q [true; true] i) /\
      Predictor._windows_from_samples Config.default
        {| Models.query := "Natal"; Models.resolved_name := "Natal";
           Models.latitude := 0; Models.longitude := 0;
           Models.timezone_name := "UTC"; Models.timezone := "UTC" |}
        [{| Models.instant := 0; Models.tzinfo := Models.UTC |};
         {| Models.instant := 10000000; Models.tzinfo := Models.UTC |}]
        [20; 5]%Q [100; 110]%Q [-20; -20]%Q [true; true]
      = Predictor.windows_loop Config.default
          {| Models.query := "Natal"; Models.resolved_name := "Natal";
             Models.latitude := 0; Models.longitude := 0;
             Models.timezone_name := "UTC"; Models.timezone := "UTC" |}
          [{| Models.instant := 0; Models.tzinfo := Models.UTC |};
           {| Models.instant := 10000000; Models.tzinfo := Models.UTC |}]
          [20; 5]%Q [100; 110]%Q (Utils.contiguous_true_spans mask) []) /\
  Predictor._windows_from_samples Config.default
    {| Models.query := "Natal"; Models.resolved_name := "Natal";
       Models.latitude := 0; Models.longitude := 0;
       Models.timezone_name := "UTC"; Models.timezone := "UTC" |}
    [{| Models.instant := 0; Models.tzinfo := Models.UTC |}]
    [20; 30]%Q [100]%Q [-20]%Q [true]
  = Py.Raise (Py.PredictionError "Sample arrays must have the same length").
Proof.
  split.
  - apply (proj1 (C3_visibility_mask Config.default
              {| Models.query := "Natal"; Models.resolved_name := "Natal";
                 Models.latitude := 0; Models.longitude := 0;
                 Models.timezone_name := "UTC"; Models.timezone := "UTC" |}
              [{| Models.instant := 0; Models.tzinfo := Models.UTC |};
               {| Models.instant := 10000000; Models.tzinfo := Models.UTC |}]
              [20; 5]%Q [100; 110]%Q [-20; -20]%Q [true; true])).
    repeat split; reflexivity.
  - apply (proj2 (C3_visibility_mask Config.default _ _ _ _ _ _)).
    cbn. intros (H & _). discriminate H.
Defined.

(* ===================================================================== *)
(** * The window assembler                                                *)
(* ===================================================================== *)

Section Assembler.
Import Py Models Config Predictor.
Local Open Scope Q_scope.

Lemma Qlt_bool_iff (a b : Q) : Qlt_bool a b = true <-> a < b.
Proof.
  unfold Qlt_bool. rewrite negb_true_iff. split.
  - intros Hle. apply Qnot_le_lt. intros H. apply Qle_bool_iff in H. congruence.
  - intros Hlt. destruct (Qle_bool b a) eqn:E; [| reflexivity].
    apply Qle_bool_iff in E. lra.
Qed.

Lemma Qlt_bool_false (a b : Q) : Qlt_bool a b = false <-> b <= a.
Proof.
  unfold Qlt_bool. rewrite negb_false_iff. apply Qle_bool_iff.
Qed.


Lemma max_key_loop_spec (iss_alt_deg : list Q) (s : Z) (n : nat) :
  forall a best : Z,
    (0 <= s <= best)%Z -> (best < a)%Z ->
    (a + Z.of_nat n <= len iss_alt_deg)%Z ->
    first_max iss_alt_deg s (a - 1) best ->
    exists p,
      max_key_loop (fun idx => index iss_alt_deg idx) best
                   (item 0 iss_alt_deg best) (range a (a + Z.of_nat n)) = Ok p /\
      first_max iss_alt_deg s (a + Z.of_nat n - 1) p.
Proof.
  induction n as [| n IH]; intros a best Hs Hbest Hlen (Hrange & Hmax & Hfirst).
  - rewrite range_nil by lia. exists best. split; [reflexivity |].
    replace (a + Z.of_nat 0 - 1)%Z with (a - 1)%Z by lia. now repeat split.
  - rewrite range_unfold by lia. cbn [max_key_loop].
    rewrite (index_item 0) by lia. cbn [bind].
    replace (a + Z.of_nat (S n))%Z with (a + 1 + Z.of_nat n)%Z in * by lia.
    destruct (Qlt_bool (item 0 iss_alt_deg best) (item 0 iss_alt_deg a)) eqn:Hlt.
    + apply Qlt_bool_iff in Hlt.
      apply IH; try lia.
      replace (a + 1 - 1)%Z with a by lia. repeat split; try lia.
      * intros j Hj. destruct (Z.eq_dec j a) as [-> | Hne]; [lra |].
        specialize (Hmax j ltac:(lia)). lra.
      * intros j Hj. specialize (Hmax j ltac:(lia)). lra.
    + apply Qlt_bool_false in Hlt.
      apply IH; try lia.
      replace (a + 1 - 1)%Z with a by lia. repeat split; try lia.
      * intros j Hj. destruct (Z.eq_dec j a) as [-> | Hne]; [lra |].
        apply Hmax. lia.
      * assumption.
Qed.

Lemma max_key_spec (iss_alt_deg : list Q) (s e : Z) :
  (0 <= s <= e)%Z -> (e < len iss_alt_deg)%Z ->
  exists p,
    max_key (fun idx => index iss_alt_deg idx) (range s (e + 1)) = Ok p /\
    first_max iss_alt_deg s e p.
Proof.
  intros Hse He. rewrite range_unfold by lia. cbn [max_key].
  rewrite (index_item 0) by lia. cbn [bind].
  destruct (max_key_loop_spec iss_alt_deg s (Z.to_nat (e - s)) (s + 1) s)
    as (p & Hrun & Hp); try lia.
  - replace (s + 1 - 1)%Z with s by lia. repeat split; try lia.
    + intros j Hj. assert (j = s) as -> by lia. lra.
  - replace (s + 1 + Z.of_nat (Z.to_nat (e - s)))%Z with (e + 1)%Z in * by lia.
    replace (e + 1 - 1)%Z with e in Hp by lia. eauto.
Qed.

Lemma az_to_cardinal_16 (az_deg : Q) :
  Utils.az_to_cardinal az_deg 16 = Ok (compass16 az_deg).
Proof.
  destruct (az_to_cardinal_bucket az_deg 16 _ eq_refl)
    as (k & m & label & _ & _ & Hres & _).
  unfold compass16. now rewrite Hres.
Qed.

Lemma stars_in_range (p d : Q) :
  (1 <=? _visibility_stars p d)%Z && (_visibility_stars p d <=? 5)%Z = true.
Proof.
  rewrite stars_unfold. unfold score_spec.
  pose proof (point_range 20 p). pose proof (point_range 40 p).
  pose proof (point_range 65 p). pose proof (point_range 120 d).
  apply andb_true_iff. split; [apply Z.leb_le | apply Z.leb_le]; lia.
Qed.



End Assembler.



(* ===================================================================== *)
(** * TLE acquisition                                                     *)
(* ===================================================================== *)

Section Acquisition.
Import Py Models Tle.

Lemma _bundled_tle_spec (name : string) :
  (names_bundled name /\ _bundled_tle name = Some _BUNDLED_ISS_TLE) \/
  (~ names_bundled name /\ _bundled_tle name = None).
Proof.
  unfold _bundled_tle, names_bundled.
  destruct (String.eqb_spec (lower (strip name))
                            (lower (Models.name _BUNDLED_ISS_TLE))); auto.
Qed.

Lemma parse_loop_exn (lines : list string) (target : string)
    (indices : list Z) (e : exn) :
  _parse_tle_loop lines target indices = Raise e ->
  is_request_exception e = false.
Proof.
  induction indices as [| idx rest IH]; cbn [_parse_tle_loop];
    [discriminate |].
  unfold index.
  destruct (getitem lines idx); cbn [bind]; [| now intros [= <-]].
  destruct (getitem lines (idx + 1)); cbn [bind]; [| now intros [= <-]].
  destruct (getitem lines (idx + 2)); cbn [bind]; [| now intros [= <-]].
  destruct (_ && _); [discriminate | exact IH].
Qed.

(** [_parse_tle] raises no [RequestException]. *)
Lemma parse_exn (name text source_url : string) (e : exn) :
  _parse_tle name text source_url = Raise e ->
  is_request_exception e = false.
Proof.
  unfold _parse_tle.
  destruct (_parse_tle_loop _ _ _) as [[tle |] | e' |] eqn:Hloop; cbn [bind].
  - discriminate.
  - now intros [= <-].
  - intros [= <-]. now apply parse_loop_exn in Hloop.
  - discriminate.
Qed.

Lemma fetch_and_parse_sent (server : Server) (name url : string)
    (key : string * string) (st : state) :
  requests_sent (snd (fetch_and_parse server name url key st))
  = requests_sent st ++ [url].
Proof.
  unfold fetch_and_parse, _fetch_text.
  destruct (bind _ _); reflexivity.
Qed.

Lemma fetch_and_parse_raise (server : Server) (name url : string)
    (key : string * string) (st : state) (e : exn) :
  server (requests_sent st) url = Raise e ->
  fetch_and_parse server name url key st
  = (Raise e, {| _TLE_CACHE := _TLE_CACHE st;
                 requests_sent := requests_sent st ++ [url] |}).
Proof.
  intros Hfail. unfold fetch_and_parse, _fetch_text. now rewrite Hfail.
Qed.

Lemma fetch_and_parse_text (server : Server) (name url : string)
    (key : string * string) (st : state) (text : string) :
  server (requests_sent st) url = Ok text ->
  fst (fetch_and_parse server name url key st) = _parse_tle name text url.
Proof.
  intros Hok. unfold fetch_and_parse, _fetch_text. rewrite Hok. cbn [bind].
  destruct (_parse_tle name text url); reflexivity.
Qed.

Lemma bundled_or_raise_sent (name : string) (key : string * string)
    (failed_url : string) (exc : exn) (st : state) :
  requests_sent (snd (bundled_or_raise name key failed_url exc st))
  = requests_sent st.
Proof. unfold bundled_or_raise. destruct (_bundled_tle name); reflexivity. Qed.

(** The fallback taken by every handler: the bundled set exactly when the
    name is that of the bundled satellite, else the fetch error. *)
Lemma bundled_or_raise_spec (name : string) (key : string * string)
    (failed_url : string) (exc : exn) (st : state) :
  let r := fst (bundled_or_raise name key failed_url exc st) in
  (names_bundled name -> r = Ok _BUNDLED_ISS_TLE) /\
  (~ names_bundled name ->
   r = Raise (TLEFetchError
                ("Failed to fetch TLE from " ++ failed_url ++ ": " ++ str_exn exc))).
Proof.
  unfold bundled_or_raise.
  destruct (_bundled_tle_spec name) as [[Hyes ->] | [Hno ->]]; cbn; tauto.
Qed.

End Acquisition.

Section Handlers.
Import Py Models Tle.

Lemma denied_test (status_code : option Z) (msg url : string) :
  (match status_code with Some c => c =? 403 | None => false end)
  && String.eqb url _FALLBACK_STATIONS_URL = true <->
  stations_denied (HTTPError status_code msg) url.
Proof.
  unfold stations_denied. rewrite andb_true_iff, String.eqb_eq. split.
  - intros [Hcode Hurl]. split; [| assumption].
    destruct status_code as [c |]; [| discriminate].
    apply Z.eqb_eq in Hcode. subst c. eauto.
  - intros [[msg' [= -> _]] Hurl]. auto.
Qed.

(** A failed first request that is not the denied stations request goes
    straight to the bundled fallback, with no second request. *)
Lemma fetch_tle_failure (server : Server) (name url : string) (st : state)
    (e : exn) :
  _TLE_CACHE st !! (name, url) = None ->
  server (requests_sent st) url = Raise e ->
  is_request_exception e = true ->
  ~ stations_denied e url ->
  fetch_tle server name url st
  = bundled_or_raise name (name, url) url e
      {| _TLE_CACHE := _TLE_CACHE st;
         requests_sent := requests_sent st ++ [url] |}.
Proof.
  intros Hmiss Hfail Hreq Hnot. unfold fetch_tle. rewrite Hmiss.
  rewrite (fetch_and_parse_raise _ _ _ _ _ _ Hfail).
  destruct e as [| | status_code msg | msg | | |]; try discriminate.
  - destruct (_ && _) eqn:Htest; [| reflexivity].
    apply (denied_test status_code msg url) in Htest. contradiction.
  - reflexivity.
Qed.

(** The denied stations request is followed by one request to the
    alternate URL. *)
Lemma fetch_tle_denied (server : Server) (name : string) (st : state)
    (msg : string) :
  let url := _FALLBACK_STATIONS_URL in
  let st1 := {| _TLE_CACHE := _TLE_CACHE st;
                requests_sent := requests_sent st ++ [url] |} in
  _TLE_CACHE st !! (name, url) = None ->
  server (requests_sent st) url = Raise (HTTPError (Some 403) msg) ->
  fetch_tle server name url st
  = match fetch_and_parse server name _FALLBACK_GP_URL (name, url) st1 with
    | (Raise fallback_exc, st2) =>
        if is_request_exception fallback_exc
        then bundled_or_raise name (name, url) _FALLBACK_GP_URL fallback_exc st2
        else (Raise fallback_exc, st2)
    | done => done
    end.
Proof.
  intros url st1 Hmiss Hfail. unfold fetch_tle. rewrite Hmiss.
  rewrite (fetch_and_parse_raise _ _ _ _ _ _ Hfail). reflexivity.
Qed.

End Handlers.

(** C1 (amended).  For a request that is not cached and whose fetch
    fails with a request failure, be it a transport failure or an HTTP
    non-success status, other than the access-denied response of the
    stations URL: [fetch_tle] returns the bundled element set if and only
    if the requested name, stripped of surrounding whitespace, equals the
    bundled satellite's name up to case, and caches it; for every other
    name it raises the fetch error. *)
Theorem C1_bundled_fallback (server : Tle.Server) (name url : string)
    (st : Tle.state) (e : Py.exn) :
  Tle._TLE_CACHE st !! (name, url) = None ->
  server (Tle.requests_sent st) url = Py.Raise e ->
  Py.is_request_exception e = true ->
  ~ stations_denied e url ->
  let r := fst (Tle.fetch_tle server name url st) in
  let st' := snd (Tle.fetch_tle server name url st) in
  (r = Py.Ok Tle._BUNDLED_ISS_TLE <-> names_bundled name) /\
  (names_bundled name ->
   Tle._TLE_CACHE st' !! (name, url) = Some Tle._BUNDLED_ISS_TLE) /\
  (~ names_bundled name ->
   r = Py.Raise (Py.TLEFetchError
                   ("Failed to fetch TLE from " ++ url ++ ": " ++ Py.str_exn e))) /\
  Tle.requests_sent st' = Tle.requests_sent st ++ [url].
Proof.
  intros Hmiss Hfail Hreq Hnot r st'. subst r st'.
  rewrite (fetch_tle_failure server name url st e Hmiss Hfail Hreq Hnot).
  match goal with
  | |- context [Tle.bundled_or_raise ?n ?k ?u ?x ?s] =>
      destruct (bundled_or_raise_spec n k u x s) as [Hyes Hno];
      pose proof (bundled_or_raise_sent n k u x s) as Hsent
  end.
  cbv zeta in Hyes, Hno. repeat split.
  - intros Hok. destruct (_bundled_tle_spec name) as [[Hb _] | [Hb _]];
      [assumption |].
    rewrite (Hno Hb) in Hok. discriminate.
  - exact Hyes.
  - intros Hb. unfold Tle.bundled_or_raise.
    destruct (_bundled_tle_spec name) as [[_ ->] | [Hb' _]]; [| contradiction].
    cbn. apply lookup_insert_eq.
  - exact Hno.
  - exact Hsent.
Qed.

Lemma C1_bundled_fallback_witness :
  fst (Tle.fetch_tle server_down " iss (zarya) " "https://example.test/tle.txt"
         empty_state)
  = Py.Ok Tle._BUNDLED_ISS_TLE <-> names_bundled " iss (zarya) ".
Proof.
  apply (C1_bundled_fallback server_down " iss (zarya) "
           "https://example.test/tle.txt" empty_state
           (Py.RequestException "connection refused")).
  - reflexivity.
  - reflexivity.
  - reflexivity.
  - intros [[msg Hmsg] _]. discriminate Hmsg.
Defined.

(** The claim as stated fails: on an HTTP 500 response, which is not the
    access-denied case, the request for the bundled satellite's name does
    not surface a fetch error but returns the bundled element set. *)
Lemma C1_counterexample :
  let name := "ISS (ZARYA)"%string in
  let url := "https://example.test/tle.txt"%string in
  Tle._TLE_CACHE empty_state !! (name, url) = None /\
  server_500 (Tle.requests_sent empty_state) url
  = Py.Raise (Py.HTTPError (Some 500) "500 Server Error") /\
  ~ stations_denied (Py.HTTPError (Some 500) "500 Server Error") url /\
  fst (Tle.fetch_tle server_500 name url empty_state)
  = Py.Ok Tle._BUNDLED_ISS_TLE /\
  ~ (exists msg, fst (Tle.fetch_tle server_500 name url empty_state)
                 = Py.Raise (Py.TLEFetchError msg)).
Proof.
  cbv zeta. split; [reflexivity |]. split; [reflexivity |]. split.
  - intros [[msg Hmsg] _]. discriminate Hmsg.
  - split; [reflexivity |]. intros [msg Hmsg]. discriminate Hmsg.
Qed.

(** C7.  When the request for the stations URL is answered with status
    403, [fetch_tle] sends exactly one more request, to the alternate URL;
    it then returns what the alternate document parses to, or, when that
    request fails too, falls back to the bundled set or raises the fetch
    error.  A 403 from any other URL is followed by no further request. *)
Theorem C7_stations_retry (server : Tle.Server) (name url : string)
    (st : Tle.state) (msg : string) :
  Tle._TLE_CACHE st !! (name, url) = None ->
  server (Tle.requests_sent st) url = Py.Raise (Py.HTTPError (Some 403) msg) ->
  let r := fst (Tle.fetch_tle server name url st) in
  let st' := snd (Tle.fetch_tle server name url st) in
  let retry := server (Tle.requests_sent st ++ [url]) Tle._FALLBACK_GP_URL in
  (url = Tle._FALLBACK_STATIONS_URL ->
   Tle.requests_sent st'
   = Tle.requests_sent st ++ [Tle._FALLBACK_STATIONS_URL; Tle._FALLBACK_GP_URL] /\
   (forall text, retry = Py.Ok text ->
      r = Tle._parse_tle name text Tle._FALLBACK_GP_URL) /\
   (forall e, retry = Py.Raise e -> Py.is_request_exception e = true ->
      (names_bundled name -> r = Py.Ok Tle._BUNDLED_ISS_TLE) /\
      (~ names_bundled name ->
       r = Py.Raise (Py.TLEFetchError
                       ("Failed to fetch TLE from " ++ Tle._FALLBACK_GP_URL
                        ++ ": " ++ Py.str_exn e))))) /\
  (url <> Tle._FALLBACK_STATIONS_URL ->
   Tle.requests_sent st' = Tle.requests_sent st ++ [url]).
Proof.
  intros Hmiss Hfail r st' retry. subst r st' retry. split.
  - intros ->. rewrite (fetch_tle_denied server name st msg Hmiss Hfail).
    set (st1 := {| Tle._TLE_CACHE := Tle._TLE_CACHE st;
                   Tle.requests_sent :=
                     Tle.requests_sent st ++ [Tle._FALLBACK_STATIONS_URL] |}).
    pose proof (fetch_and_parse_sent server name Tle._FALLBACK_GP_URL
                  (name, Tle._FALLBACK_STATIONS_URL) st1) as Hsent.
    cbn [Tle.requests_sent st1] in Hsent. rewrite <- app_assoc in Hsent.
    cbn [app] in Hsent.
    split; [| split].
    + destruct (Tle.fetch_and_parse _ _ _ _ st1) as [[tle | e |] st2];
        cbn [fst snd] in *; try assumption.
      destruct (Py.is_request_exception e); cbn [snd]; [| assumption].
      now rewrite bundled_or_raise_sent.
    + intros text Htext.
      pose proof (fetch_and_parse_text server name Tle._FALLBACK_GP_URL
                    (name, Tle._FALLBACK_STATIONS_URL) st1 text Htext) as Hres.
      destruct (Tle.fetch_and_parse _ _ _ _ st1) as [[tle | e |] st2];
        cbn [fst] in *; try assumption.
      symmetry in Hres. rewrite (parse_exn _ _ _ _ Hres). cbn [fst].
      now symmetry.
    + intros e Hretry Hreq.
      rewrite (fetch_and_parse_raise server name Tle._FALLBACK_GP_URL
                 (name, Tle._FALLBACK_STATIONS_URL) st1 e Hretry).
      rewrite Hreq. apply bundled_or_raise_spec.
  - intros Hother.
    rewrite (fetch_tle_failure server name url st _ Hmiss Hfail eq_refl).
    + now rewrite bundled_or_raise_sent.
    + intros [_ Hurl]. contradiction.
Qed.

Lemma C7_stations_retry_witness :
  Tle.requests_sent
    (snd (Tle.fetch_tle server_403_then_down "ISS (ZARYA)"
            Tle._FALLBACK_STATIONS_URL empty_state))
  = [Tle._FALLBACK_STATIONS_URL; Tle._FALLBACK_GP_URL].
Proof.
  apply (proj1 (C7_stations_retry server_403_then_down "ISS (ZARYA)"
                  Tle._FALLBACK_STATIONS_URL empty_state "403 Forbidden"
                  eq_refl eq_refl) eq_refl).
Defined.

(* ===================================================================== *)
(** * The prediction orchestrator                                         *)
(* ===================================================================== *)

Section Passes.
Import Py Models Config Predictor.






End Passes.

Section Orchestrator.
Import Py Models Config Predictor.

Variables (fuel : nat) (sky : Skyfield) (config : Config) (loc : Location)
          (tle : TLE).


End Orchestrator.

Section Sorting.
Import Py Models Predictor.








End Sorting.

(* ===================================================================== *)
(** * Termination: the calls that return or raise                         *)
(* ===================================================================== *)

Section Totality.
Import Py Models Config Predictor.
















End Totality.

Section Enough.
Import Py Models Config Predictor.

Variables (sky : Skyfield) (config : Config) (loc : Location) (tle : TLE).
Hypothesis step_pos : 0 < sample_seconds config.
Hypothesis geometry_total :
  forall samples, total (sample_geometry sky tle loc samples).



End Enough.

Section Run.
Import Py Models Config Predictor.

Variables (server : Tle.Server) (sky : Skyfield) (config : Config)
          (loc : Location) (start_dt end_dt : datetime) (st st1 : Tle.state)
          (tle : TLE) (event_times : list Time) (event_types : list Z).

Hypothesis range_nonempty : instant start_dt < instant end_dt.
Hypothesis timescale_ok : load_timescale sky = Ok tt.
Hypothesis tle_ok :
  Tle.fetch_tle server (tle_name config) (tle_url config) st = (Ok tle, st1).
Hypothesis satellite_ok : load_satellite sky tle loc = Ok tt.
Hypothesis events_ok :
  find_events sky tle loc (astimezone start_dt UTC) (astimezone end_dt UTC)
              (min_elev_deg config)
  = Ok (event_times, event_types).
Hypothesis events_zip : len event_times = len event_types.


End Run.



(* ===================================================================== *)
(** * Further properties of TLE acquisition                               *)
(* ===================================================================== *)

Section Cache.
Import Py Models Tle.

Lemma fetch_and_parse_cache (server : Server) (name url : string)
    (key : string * string) (st : state) :
  let r := fst (fetch_and_parse server name url key st) in
  let st' := snd (fetch_and_parse server name url key st) in
  match r with
  | Ok tle => _TLE_CACHE st' = <[key := tle]> (_TLE_CACHE st)
  | _ => _TLE_CACHE st' = _TLE_CACHE st
  end.
Proof.
  unfold fetch_and_parse, _fetch_text.
  destruct (bind _ _); reflexivity.
Qed.

Lemma bundled_or_raise_cache (name : string) (key : string * string)
    (failed_url : string) (exc : exn) (st : state) :
  let r := fst (bundled_or_raise name key failed_url exc st) in
  let st' := snd (bundled_or_raise name key failed_url exc st) in
  match r with
  | Ok tle => _TLE_CACHE st' = <[key := tle]> (_TLE_CACHE st)
  | Raise e => _TLE_CACHE st' = _TLE_CACHE st /\ exists msg, e = TLEFetchError msg
  | OutOfFuel => False
  end.
Proof.
  unfold bundled_or_raise. destruct (_bundled_tle name); cbn; eauto.
Qed.

(** What a call that misses the cache does to it: a returned element set
    is stored under the key of the call, a failure stores nothing. *)
Lemma fetch_tle_miss (server : Server) (name url : string) (st : state) :
  _TLE_CACHE st !! (name, url) = None ->
  let r := fst (fetch_tle server name url st) in
  let st' := snd (fetch_tle server name url st) in
  match r with
  | Ok tle => _TLE_CACHE st' = <[(name, url) := tle]> (_TLE_CACHE st)
  | Raise e => _TLE_CACHE st' = _TLE_CACHE st /\ is_request_exception e = false
  | OutOfFuel => _TLE_CACHE st' = _TLE_CACHE st
  end.
Proof.
  intros Hmiss. unfold fetch_tle. rewrite Hmiss.
  pose proof (fetch_and_parse_cache server name url (name, url) st) as H1.
  cbv zeta in H1.
  destruct (fetch_and_parse server name url (name, url) st) as [r1 st1].
  cbn [fst snd] in H1.
  destruct r1 as [tle | e |]; cbn [fst snd]; try assumption.
  assert (forall key failed_url exc st0,
             _TLE_CACHE st0 = _TLE_CACHE st ->
             match fst (bundled_or_raise name key failed_url exc st0) with
             | Ok tle =>
                 _TLE_CACHE (snd (bundled_or_raise name key failed_url exc st0))
                 = <[key := tle]> (_TLE_CACHE st)
             | Raise e0 =>
                 _TLE_CACHE (snd (bundled_or_raise name key failed_url exc st0))
                 = _TLE_CACHE st /\ is_request_exception e0 = false
             | OutOfFuel =>
                 _TLE_CACHE (snd (bundled_or_raise name key failed_url exc st0))
                 = _TLE_CACHE st
             end) as Hfallback.
  { intros key failed_url exc st0 Hst0.
    pose proof (bundled_or_raise_cache name key failed_url exc st0) as Hb.
    cbv zeta in Hb.
    destruct (bundled_or_raise name key failed_url exc st0) as [rb stb].
    cbn [fst snd] in *. destruct rb as [tle | e0 |]; try contradiction.
    - now rewrite Hb, Hst0.
    - destruct Hb as [Hb [msg ->]]. now rewrite Hb, Hst0. }
  destruct e as [| | status_code msg | msg | | |]; cbn [fst snd];
    try (split; [assumption | reflexivity]).
  - destruct (_ && _).
    + pose proof (fetch_and_parse_cache server name _FALLBACK_GP_URL
                    (name, url) st1) as H2.
      cbv zeta in H2.
      destruct (fetch_and_parse server name _FALLBACK_GP_URL (name, url) st1)
        as [r2 st2].
      cbn [fst snd] in H2.
      destruct r2 as [tle | e2 |]; cbn [fst snd].
      * now rewrite H2, H1.
      * destruct (is_request_exception e2) eqn:Hreq.
        -- apply Hfallback. now rewrite H2.
        -- cbn [fst snd]. split; [now rewrite H2 | assumption].
      * now rewrite H2.
    + now apply Hfallback.
  - now apply Hfallback.
Qed.

End Cache.

(** X1.  A returned element set is in the cache under the key of the
    call, and the next call for that key returns it again without a
    request and without changing the state, whatever the server does. *)
Theorem X1_fetch_tle_cached (server server' : Tle.Server) (name url : string)
    (st : Tle.state) (tle : Models.TLE) :
  fst (Tle.fetch_tle server name url st) = Py.Ok tle ->
  let st' := snd (Tle.fetch_tle server name url st) in
  Tle._TLE_CACHE st' !! (name, url) = Some tle /\
  Tle.fetch_tle server' name url st' = (Py.Ok tle, st').
Proof.
  intros Hok st'.
  assert (Tle._TLE_CACHE st' !! (name, url) = Some tle) as Hcached.
  { subst st'. destruct (Tle._TLE_CACHE st !! (name, url)) as [cached |] eqn:Hkey.
    - unfold Tle.fetch_tle in *. rewrite Hkey in *. cbn [fst snd] in *.
      now injection Hok as ->.
    - pose proof (fetch_tle_miss server name url st Hkey) as Hmiss.
      cbv zeta in Hmiss. rewrite Hok in Hmiss. rewrite Hmiss.
      apply lookup_insert_eq. }
  split; [exact Hcached |].
  unfold Tle.fetch_tle at 1. now rewrite Hcached.
Qed.

Lemma X1_fetch_tle_cached_witness :
  Tle.fetch_tle server_500 "ISS (ZARYA)" "https://example.test/tle.txt"
    (snd (Tle.fetch_tle server_down "ISS (ZARYA)"
            "https://example.test/tle.txt" empty_state))
  = (Py.Ok Tle._BUNDLED_ISS_TLE,
     snd (Tle.fetch_tle server_down "ISS (ZARYA)"
            "https://example.test/tle.txt" empty_state)).
Proof.
  apply (X1_fetch_tle_cached server_down server_500 "ISS (ZARYA)"
           "https://example.test/tle.txt" empty_state Tle._BUNDLED_ISS_TLE).
  reflexivity.
Defined.

(** X2.  [fetch_tle] only ever adds to the cache: an entry that is there
    stays as it is, no key other than the one of the call is touched, and
    a call that does not return leaves the cache as it was. *)
Theorem X2_fetch_tle_cache_grows (server : Tle.Server) (name url : string)
    (st : Tle.state) :
  let r := fst (Tle.fetch_tle server name url st) in
  let st' := snd (Tle.fetch_tle server name url st) in
  (forall key tle, Tle._TLE_CACHE st !! key = Some tle ->
                   Tle._TLE_CACHE st' !! key = Some tle) /\
  (forall key, key <> (name, url) ->
               Tle._TLE_CACHE st' !! key = Tle._TLE_CACHE st !! key) /\
  ((forall tle, r <> Py.Ok tle) -> Tle._TLE_CACHE st' = Tle._TLE_CACHE st).
Proof.
  cbv zeta.
  destruct (Tle._TLE_CACHE st !! (name, url)) as [cached |] eqn:Hkey.
  - unfold Tle.fetch_tle. rewrite Hkey. cbn [fst snd]. auto.
  - pose proof (fetch_tle_miss server name url st Hkey) as Hmiss.
    cbv zeta in Hmiss.
    destruct (fst (Tle.fetch_tle server name url st)) as [tle | e |].
    + rewrite Hmiss. repeat split.
      * intros key tle' Hin. rewrite lookup_insert_ne; [assumption |].
        intros <-. congruence.
      * intros key Hne. now rewrite lookup_insert_ne.
      * intros Hnot. now contradiction (Hnot tle).
    + destruct Hmiss as [-> _]. auto.
    + rewrite Hmiss. auto.
Qed.

Lemma X2_fetch_tle_cache_grows_witness :
  Tle._TLE_CACHE
    (snd (Tle.fetch_tle server_down "NOT-ISS" "https://example.test/tle.txt"
            (snd (Tle.fetch_tle server_down "ISS (ZARYA)"
                    "https://example.test/tle.txt" empty_state))))
  !! ("ISS (ZARYA)"%string, "https://example.test/tle.txt"%string)
  = Some Tle._BUNDLED_ISS_TLE.
Proof.
  apply (proj1 (X2_fetch_tle_cache_grows server_down "NOT-ISS"
                  "https://example.test/tle.txt" _)).
  reflexivity.
Defined.

(** X3.  No exception of [requests] escapes [fetch_tle]: whatever the
    server does, an exception that [fetch_tle] raises is not a
    [RequestException]. *)
Theorem X3_fetch_tle_no_request_exception (server : Tle.Server)
    (name url : string) (st : Tle.state) (e : Py.exn) :
  fst (Tle.fetch_tle server name url st) = Py.Raise e ->
  Py.is_request_exception e = false.
Proof.
  intros Hraise.
  destruct (Tle._TLE_CACHE st !! (name, url)) as [cached |] eqn:Hkey.
  - unfold Tle.fetch_tle in Hraise. rewrite Hkey in Hraise. discriminate.
  - pose proof (fetch_tle_miss server name url st Hkey) as Hmiss.
    cbv zeta in Hmiss. rewrite Hraise in Hmiss. apply Hmiss.
Qed.

Lemma X3_fetch_tle_no_request_exception_witness :
  Py.is_request_exception
    (Py.TLEFetchError
       "Failed to fetch TLE from https://example.test/tle.txt: 500 Server Error")
  = false.
Proof.
  apply (X3_fetch_tle_no_request_exception server_500 "NOT-ISS"
           "https://example.test/tle.txt" empty_state).
  reflexivity.
Defined.

(** X4.  A call for a cached key sends nothing and leaves the state as it
    is; any other call sends the request for its URL and, only when that
    URL is the stations URL, at most one more, to the alternate URL. *)
Theorem X4_fetch_tle_requests (server : Tle.Server) (name url : string)
    (st : Tle.state) :
  let st' := snd (Tle.fetch_tle server name url st) in
  (forall cached, Tle._TLE_CACHE st !! (name, url) = Some cached ->
                  Tle.fetch_tle server name url st = (Py.Ok cached, st)) /\
  (Tle._TLE_CACHE st !! (name, url) = None ->
   Tle.requests_sent st' = Tle.requests_sent st ++ [url] \/
   (url = Tle._FALLBACK_STATIONS_URL /\
    Tle.requests_sent st'
    = Tle.requests_sent st ++ [url; Tle._FALLBACK_GP_URL])).
Proof.
  cbv zeta. split.
  - intros cached Hkey. unfold Tle.fetch_tle. now rewrite Hkey.
  - intros Hkey. unfold Tle.fetch_tle. rewrite Hkey.
    pose proof (fetch_and_parse_sent server name url (name, url) st) as H1.
    destruct (Tle.fetch_and_parse server name url (name, url) st) as [r1 st1].
    cbn [snd] in H1.
    destruct r1 as [tle | e |]; cbn [snd]; auto.
    destruct e as [| | status_code msg | msg | | |]; cbn [snd]; auto;
      try (left; now rewrite bundled_or_raise_sent).
    destruct (_ && _) eqn:Htest;
      [| left; now rewrite bundled_or_raise_sent].
    apply (denied_test status_code msg url) in Htest as [_ Hurl].
    right. split; [exact Hurl |].
    pose proof (fetch_and_parse_sent server name Tle._FALLBACK_GP_URL
                  (name, url) st1) as H2.
    rewrite H1, <- app_assoc in H2. cbn [app] in H2.
    destruct (Tle.fetch_and_parse server name Tle._FALLBACK_GP_URL
                (name, url) st1) as [r2 st2].
    cbn [snd] in H2.
    destruct r2 as [tle | e2 |]; cbn [snd]; auto.
    destruct (Py.is_request_exception e2); cbn [snd]; auto.
    now rewrite bundled_or_raise_sent.
Qed.

Lemma X4_fetch_tle_requests_witness :
  Tle.requests_sent
    (snd (Tle.fetch_tle server_500 "NOT-ISS" "https://example.test/tle.txt"
            empty_state))
  = [] ++ ["https://example.test/tle.txt"%string] \/
  ("https://example.test/tle.txt"%string = Tle._FALLBACK_STATIONS_URL /\
   Tle.requests_sent
     (snd (Tle.fetch_tle server_500 "NOT-ISS" "https://example.test/tle.txt"
             empty_state))
   = [] ++ ["https://example.test/tle.txt"%string; Tle._FALLBACK_GP_URL]).
Proof.
  apply (proj2 (X4_fetch_tle_requests server_500 "NOT-ISS"
                  "https://example.test/tle.txt" empty_state)).
  reflexivity.
Defined.

Section Unreachable.
Import Py Models Tle.

Lemma stations_denied_dec (e : exn) (url : string) :
  stations_denied e url \/ ~ stations_denied e url.
Proof.
  unfold stations_denied.
  destruct (String.eqb_spec url _FALLBACK_STATIONS_URL) as [Hurl | Hurl];
    [| right; tauto].
  destruct e as [| | [code |] msg | | | |];
    try (right; intros [[msg' Habs] _]; discriminate).
  destruct (Z.eq_dec code 403) as [-> | Hcode].
  - left. eauto.
  - right. intros [[msg' [= Habs _]] _]. contradiction.
Qed.

End Unreachable.

(** X5.  When every request fails with a request exception, a call that
    misses the cache returns the bundled element set for the bundled
    satellite's name, whatever the URL, and raises [TLEFetchError] for
    every other name. *)
Theorem X5_fetch_tle_unreachable (server : Tle.Server) (name url : string)
    (st : Tle.state) :
  unreachable server ->
  Tle._TLE_CACHE st !! (name, url) = None ->
  let r := fst (Tle.fetch_tle server name url st) in
  (names_bundled name -> r = Py.Ok Tle._BUNDLED_ISS_TLE) /\
  (~ names_bundled name -> exists msg, r = Py.Raise (Py.TLEFetchError msg)).
Proof.
  intros Hdown Hkey. cbv zeta.
  destruct (Hdown (Tle.requests_sent st) url) as (e & Hfail & Hreq).
  destruct (stations_denied_dec e url) as [[[msg ->] ->] | Hnot].
  - rewrite (fetch_tle_denied server name st msg Hkey Hfail).
    destruct (Hdown (Tle.requests_sent st ++ [Tle._FALLBACK_STATIONS_URL])
                Tle._FALLBACK_GP_URL) as (e2 & Hfail2 & Hreq2).
    rewrite (fetch_and_parse_raise server name Tle._FALLBACK_GP_URL _
               {| Tle._TLE_CACHE := Tle._TLE_CACHE st;
                  Tle.requests_sent :=
                    Tle.requests_sent st ++ [Tle._FALLBACK_STATIONS_URL] |}
               e2 Hfail2).
    rewrite Hreq2.
    match goal with
    | |- context [Tle.bundled_or_raise ?n ?k ?u ?x ?s] =>
        destruct (bundled_or_raise_spec n k u x s) as [Hyes Hno]
    end.
    cbv zeta in Hyes, Hno. split; [exact Hyes | eauto].
  - rewrite (fetch_tle_failure server name url st e Hkey Hfail Hreq Hnot).
    match goal with
    | |- context [Tle.bundled_or_raise ?n ?k ?u ?x ?s] =>
        destruct (bundled_or_raise_spec n k u x s) as [Hyes Hno]
    end.
    cbv zeta in Hyes, Hno. split; [exact Hyes | eauto].
Qed.

Lemma X5_fetch_tle_unreachable_witness :
  fst (Tle.fetch_tle server_403_then_down "iss (zarya)"
         Tle._FALLBACK_STATIONS_URL empty_state)
  = Py.Ok Tle._BUNDLED_ISS_TLE.
Proof.
  apply (proj1 (X5_fetch_tle_unreachable server_403_then_down "iss (zarya)"
                  Tle._FALLBACK_STATIONS_URL empty_state
                  (fun sent url =>
                     match sent with
                     | [] => ex_intro _ (Py.HTTPError (Some 403) "403 Forbidden")
                               (conj eq_refl eq_refl)
                     | _ :: _ => ex_intro _ (Py.RequestException "connection refused")
                                   (conj eq_refl eq_refl)
                     end)
                  eq_refl)).
  reflexivity.
Defined.

Section Parsing.
Import Py Models Tle.

Lemma parse_loop_spec (lines : list string) (target : string) (n : nat) :
  forall a : Z,
    0 <= a -> a + Z.of_nat n + 2 <= len lines ->
    _parse_tle_loop lines target (range a (a + Z.of_nat n))
    = Ok (first_record lines target a n).
Proof.
  induction n as [| n IH]; intros a Ha Hlen.
  - rewrite range_nil by lia. reflexivity.
  - rewrite range_unfold by lia. cbn [_parse_tle_loop first_record].
    destruct (index_in_range lines a ltac:(lia)) as (x0 & -> & H0).
    destruct (index_in_range lines (a + 1) ltac:(lia)) as (x1 & -> & H1).
    destruct (index_in_range lines (a + 2) ltac:(lia)) as (x2 & -> & H2).
    cbn [bind]. unfold record_at. rewrite H0, H1, H2.
    destruct (_ && _); [reflexivity |].
    replace (a + Z.of_nat (S n)) with (a + 1 + Z.of_nat n) by lia.
    apply IH; lia.
Qed.

Lemma record_at_beyond (lines : list string) (target : string) (i : Z) :
  len lines - 2 <= i -> 0 <= i -> record_at lines target i = None.
Proof.
  intros Hi H0. unfold record_at.
  assert (nth_error lines (Z.to_nat (i + 2)) = None) as ->
    by (apply nth_error_None; unfold len in Hi; lia).
  destruct (nth_error lines (Z.to_nat i)); [| reflexivity].
  destruct (nth_error lines (Z.to_nat (i + 1))); reflexivity.
Qed.

Lemma first_record_some (lines : list string) (target : string) (n : nat) :
  forall (a : Z) (tle : TLE),
    first_record lines target a n = Some tle <->
    exists i, a <= i < a + Z.of_nat n /\
              record_at lines target i = Some tle /\
              forall j, a <= j < i -> record_at lines target j = None.
Proof.
  induction n as [| n IH]; intros a tle; cbn [first_record].
  - split; [discriminate | intros (i & Hi & _); lia].
  - destruct (record_at lines target a) as [found |] eqn:Ha.
    + split.
      * intros [= ->]. exists a. repeat split; try lia. exact Ha.
      * intros (i & Hi & Hrec & Hfirst).
        destruct (Z.eq_dec i a) as [-> | Hne]; [congruence |].
        rewrite (Hfirst a) in Ha by lia. discriminate.
    + rewrite IH. split.
      * intros (i & Hi & Hrec & Hfirst). exists i. repeat split; try lia;
          try assumption.
        intros j Hj. destruct (Z.eq_dec j a) as [-> | Hne];
          [assumption | apply Hfirst; lia].
      * intros (i & Hi & Hrec & Hfirst).
        destruct (Z.eq_dec i a) as [-> | Hne]; [congruence |].
        exists i. repeat split; try lia; try assumption.
        intros j Hj. apply Hfirst. lia.
Qed.

Lemma first_record_none (lines : list string) (target : string) (n : nat) :
  forall a : Z,
    first_record lines target a n = None ->
    forall i, a <= i < a + Z.of_nat n -> record_at lines target i = None.
Proof.
  induction n as [| n IH]; intros a Hnone i Hi; [lia |].
  cbn [first_record] in Hnone.
  destruct (record_at lines target a) eqn:Ha; [discriminate |].
  destruct (Z.eq_dec i a) as [-> | Hne]; [assumption |].
  apply (IH (a + 1) Hnone). lia.
Qed.

Lemma parse_tle_first_record (name text source_url : string) :
  _parse_tle name text source_url
  = match first_record (tle_lines text) (lower (strip name)) 0
            (Z.to_nat (len (tle_lines text) - 2)) with
    | Some tle => Ok tle
    | None => Raise (not_found name source_url)
    end.
Proof.
  unfold _parse_tle. fold (tle_lines text).
  set (lines := tle_lines text). set (n := Z.to_nat (len lines - 2)).
  destruct (Z_le_gt_dec 2 (len lines)) as [Hlen | Hlen].
  - replace (len lines - 2) with (0 + Z.of_nat n) by lia.
    rewrite parse_loop_spec by lia. cbn [bind].
    destruct (first_record _ _ _ _); reflexivity.
  - rewrite range_nil by lia. replace n with 0%nat by lia. reflexivity.
Qed.

Lemma parse_tle_not_found (name text source_url : string) :
  (forall i, 0 <= i ->
     record_at (tle_lines text) (lower (strip name)) i = None) ->
  _parse_tle name text source_url = Raise (not_found name source_url).
Proof.
  intros Hnone. rewrite parse_tle_first_record.
  destruct (first_record _ _ _ _) as [tle |] eqn:Hfirst; [| reflexivity].
  apply first_record_some in Hfirst as (i & Hi & Hrec & _).
  rewrite Hnone in Hrec by lia. discriminate.
Qed.

End Parsing.

(** X6.  [_parse_tle] returns the first record of the document, and only
    that: it returns an element set exactly when that set is the record
    at some position, a name line equal to the requested name up to case
    and surrounding whitespace followed by its two element lines, and no
    earlier position holds a record; when no position holds one it raises
    the not-found error, and it raises nothing else. *)
Theorem X6_parse_tle_first_record (name text source_url : string) :
  let lines := tle_lines text in
  let target := Py.lower (Py.strip name) in
  (forall tle,
      Tle._parse_tle name text source_url = Py.Ok tle <->
      exists i, 0 <= i /\ record_at lines target i = Some tle /\
                forall j, 0 <= j < i -> record_at lines target j = None) /\
  (Tle._parse_tle name text source_url = Py.Raise (not_found name source_url)
   <-> forall i, 0 <= i -> record_at lines target i = None) /\
  ((exists tle, Tle._parse_tle name text source_url = Py.Ok tle) \/
   Tle._parse_tle name text source_url = Py.Raise (not_found name source_url)).
Proof.
  intros lines target. rewrite parse_tle_first_record. fold lines target.
  set (n := Z.to_nat (Py.len lines - 2)).
  assert (forall i, 0 <= i -> ~ (i < 0 + Z.of_nat n) ->
                    record_at lines target i = None) as Hbeyond
    by (intros i Hi Hge; apply record_at_beyond; lia).
  destruct (first_record lines target 0 n) as [found |] eqn:Hfirst.
  - apply first_record_some in Hfirst as (i & Hi & Hrec & Hmin).
    split; [| split].
    + intros tle. split.
      * intros [= <-]. exists i. repeat split; try lia; assumption.
      * intros (i' & Hi' & Hrec' & Hmin').
        destruct (Z.lt_trichotomy i i') as [Hlt | [-> | Hgt]].
        -- rewrite (Hmin' i) in Hrec by lia. discriminate.
        -- congruence.
        -- rewrite (Hmin i') in Hrec' by lia. discriminate.
    + split; [discriminate |]. intros Hnone.
      rewrite (Hnone i) in Hrec by lia. discriminate.
    + left. eauto.
  - assert (forall i, 0 <= i -> record_at lines target i = None) as Hnone.
    { intros i Hi. destruct (Z_lt_dec i (0 + Z.of_nat n)) as [Hin | Hout];
        [| now apply Hbeyond].
      apply (first_record_none lines target n 0 Hfirst). lia. }
    split; [| split].
    + intros tle. split; [discriminate |].
      intros (i & Hi & Hrec & _). rewrite Hnone in Hrec by lia. discriminate.
    + tauto.
    + now right.
Qed.

Lemma X6_parse_tle_first_record_witness :
  Tle._parse_tle " iss (zarya) " iss_document "https://example.test/tle.txt"
  = Py.Ok Tle._BUNDLED_ISS_TLE.
Proof.
  apply (proj1 (X6_parse_tle_first_record " iss (zarya) " iss_document
                  "https://example.test/tle.txt")).
  exists 0. split; [lia |]. split; [reflexivity |]. intros j Hj. lia.
Defined.

(* ===================================================================== *)
(** * Further properties of the predictor                                 *)
(* ===================================================================== *)

(** X7.  [_single_utc_datetime] accepts a single [datetime], bare or as
    the only item of a sequence, and nothing else: what it returns is in
    UTC at the instant of that [datetime], a naive one being read as UTC,
    and what it raises is a [PredictionError]; a sequence is accepted
    only when it has exactly one item and that item is a [datetime]. *)
Theorem X7_single_utc_datetime (time_value : Predictor.Time) :
  match Predictor._single_utc_datetime time_value with
  | Py.Ok d =>
      Models.tzinfo d = Models.UTC /\
      exists source,
        d = utc_of source /\
        (time_value = Predictor.RawDatetime source \/
         time_value = Predictor.RawSequence [Some source])
  | Py.Raise e =>
      (exists msg, e = Py.PredictionError msg) /\
      forall source,
        time_value <> Predictor.RawDatetime source /\
        time_value <> Predictor.RawSequence [Some source]
  | Py.OutOfFuel => False
  end.
Proof.
  unfold Predictor._single_utc_datetime, Py.len.
  destruct time_value as [[wall | a] | items |]; cbn [Py.bind].
  - split; [reflexivity |]. exists (Models.Naive wall). auto.
  - split; [reflexivity |]. exists (Models.Aware a). auto.
  - destruct items as [| first [| second rest]].
    + cbn. split; [eauto | intros source; split; congruence].
    + destruct first as [[wall | a] |]; cbn.
      * split; [reflexivity |]. exists (Models.Naive wall). auto.
      * split; [reflexivity |]. exists (Models.Aware a). auto.
      * split; [eauto | intros source; split; congruence].
    + assert (negb (Z.of_nat (length (first :: second :: rest)) =? 1) = true)
        as -> by (cbn [length]; destruct (Z.eqb_spec (Z.of_nat (S (S (length rest)))) 1); [lia | reflexivity]).
      cbn. split; [eauto | intros source; split; congruence].
  - cbn. split; [eauto | intros source; split; congruence].
Qed.

Section SamplerEdges.
Import Py Models Config Predictor.

Lemma sample_loop_diverges (set_dt : datetime) (step : Z) (fuel : nat) :
  forall (cursor : datetime) (samples_utc : list datetime),
    step <= 0 -> instant cursor <= instant set_dt ->
    sample_loop fuel cursor set_dt step samples_utc = OutOfFuel.
Proof.
  induction fuel as [| fuel IH]; intros cursor samples_utc Hstep Hle;
    cbn [sample_loop]; [reflexivity |].
  unfold dt_leb. destruct (Z.leb_spec (instant cursor) (instant set_dt)); [| lia].
  apply IH; [assumption |]. cbn [instant dt_add]. lia.
Qed.

End SamplerEdges.



Section WindowInvariants.
Import Py Models Config Predictor.

(** A window that comes out of the loop body is the window of its span,
    its peak at the first maximum; the span is not too short and its
    end is not before its start. *)
Lemma window_of_span_inv (config : Config) (loc : Location)
    (sample_times_utc : list datetime) (iss_alt_deg iss_az_deg : list Q)
    (s e : Z) (w : VisibilityWindow) :
  len sample_times_utc = len iss_alt_deg ->
  len sample_times_utc = len iss_az_deg ->
  0 <= s <= e -> e < len sample_times_utc ->
  window_of_span config loc sample_times_utc iss_alt_deg iss_az_deg (s, e)
  = Ok (Some w) ->
  exists p,
    first_max iss_alt_deg s e p /\
    w = window_at config loc sample_times_utc iss_alt_deg iss_az_deg s e p /\
    instant (item epoch sample_times_utc s)
    <= instant (item epoch sample_times_utc e) /\
    (inject_Z (min_window_seconds config)
     <= total_seconds (instant (item epoch sample_times_utc e)
                       - instant (item epoch sample_times_utc s)))%Q.
Proof.
  intros Halt Haz Hse He. unfold window_of_span.
  rewrite !(index_item epoch) by lia. cbn [bind].
  set (duration := instant (item epoch sample_times_utc e)
                   - instant (item epoch sample_times_utc s)).
  destruct (Qlt_bool (total_seconds duration)
                     (inject_Z (min_window_seconds config))) eqn:Hshort;
    [discriminate |].
  apply Qlt_bool_false in Hshort.
  destruct (max_key_spec iss_alt_deg s e) as (p & Hpeak & Hfirst);
    [lia | lia |].
  rewrite Hpeak. cbn [bind].
  pose proof Hfirst as (Hp & _ & _).
  rewrite (index_item epoch) by lia. cbn [bind].
  rewrite !(index_item 0%Q) by lia. cbn [bind].
  rewrite !az_to_cardinal_16. cbn [bind].
  unfold post_init, dt_ltb.
  cbn [end_local start_local astimezone instant Models.duration
       visibility_stars].
  destruct (Z.ltb_spec (instant (item epoch sample_times_utc e))
                       (instant (item epoch sample_times_utc s)));
    [discriminate |].
  destruct (Qlt_bool _ 0); [discriminate |].
  destruct (negb _); [discriminate |].
  cbn [bind]. intros [= <-]. exists p. repeat split; try assumption;
    try apply Hfirst; lia.
Qed.

Lemma window_at_valid (config : Config) (loc : Location)
    (sample_times_utc : list datetime) (iss_alt_deg iss_az_deg : list Q)
    (s e p : Z) :
  first_max iss_alt_deg s e p ->
  instant (item epoch sample_times_utc s)
  <= instant (item epoch sample_times_utc e) ->
  (inject_Z (min_window_seconds config)
   <= total_seconds (instant (item epoch sample_times_utc e)
                     - instant (item epoch sample_times_utc s)))%Q ->
  (min_elev_deg config <= item 0%Q iss_alt_deg s)%Q ->
  valid_window config loc
    (window_at config loc sample_times_utc iss_alt_deg iss_az_deg s e p).
Proof.
  intros (Hp & Hmax & _) Horder Hlong Hmin.
  unfold valid_window, window_at.
  cbn [start_local end_local peak_local Models.duration peak_elevation_deg
       start_azimuth_deg peak_azimuth_deg end_azimuth_deg start_direction
       peak_direction end_direction visibility_stars astimezone instant tzinfo].
  pose proof (stars_in_range (item 0%Q iss_alt_deg p)
                (total_seconds (instant (item epoch sample_times_utc e)
                                - instant (item epoch sample_times_utc s))))
    as Hstars.
  apply andb_true_iff in Hstars as [H1 H5].
  apply Z.leb_le in H1. apply Z.leb_le in H5.
  repeat split; try reflexivity; try assumption.
  apply Qle_trans with (item 0%Q iss_alt_deg s); [assumption |].
  apply Hmax. lia.
Qed.

Lemma windows_loop_inv (P : VisibilityWindow -> Prop) (config : Config)
    (loc : Location) (sample_times_utc : list datetime)
    (iss_alt_deg iss_az_deg : list Q) (spans : list (Z * Z)) :
  Forall (fun span =>
            forall w,
              window_of_span config loc sample_times_utc iss_alt_deg
                             iss_az_deg span = Ok (Some w) -> P w) spans ->
  forall windows result,
    Forall P windows ->
    windows_loop config loc sample_times_utc iss_alt_deg iss_az_deg spans windows
    = Ok result ->
    Forall P result.
Proof.
  induction 1 as [| span spans Hspan Hall IH]; intros windows result Hacc;
    cbn [windows_loop].
  - now intros [= <-].
  - destruct (window_of_span _ _ _ _ _ span) as [[w |] | e |]; cbn [bind];
      try discriminate.
    + apply IH. apply List.Forall_app. split; [assumption |].
      constructor; [now apply Hspan | constructor].
    + now apply IH.
Qed.

End WindowInvariants.

Lemma windows_from_samples_valid (config : Config.Config)
    (loc : Models.Location) (sample_times_utc : list Models.datetime)
    (iss_alt_deg iss_az_deg sun_alt_deg : list Q) (iss_sunlit : list bool)
    (windows : list Models.VisibilityWindow) :
  Predictor._windows_from_samples config loc sample_times_utc iss_alt_deg
    iss_az_deg sun_alt_deg iss_sunlit = Py.Ok windows ->
  Forall (valid_window config loc) windows.
Proof.
  unfold Predictor._windows_from_samples.
  set (n := Py.len sample_times_utc).
  destruct (Predictor.same_length n iss_alt_deg iss_az_deg sun_alt_deg
              iss_sunlit) eqn:Hsame; cbn [negb]; [| discriminate].
  apply same_length_true in Hsame as (Halt & Haz & Hsun & Hlit).
  destruct (n =? 0); [intros [= <-]; constructor |].
  assert (0 <= n) as Hn by apply len_nonneg.
  rewrite (visibility_mask_spec config iss_alt_deg sun_alt_deg iss_sunlit n
             Hn Halt Hsun Hlit).
  cbn [Py.bind].
  set (mask := map (visible_b config iss_alt_deg sun_alt_deg iss_sunlit)
                   (Py.range 0 n)).
  assert (Py.len mask = n) as Hmasklen
    by (unfold mask, Py.len; rewrite length_map, range_length; lia).
  intros Hloop.
  eapply windows_loop_inv; [| constructor | exact Hloop].
  apply List.Forall_forall. intros [s e] Hin w Hw.
  pose proof (spans_in_bounds mask s e Hin) as Hb. rewrite Hmasklen in Hb.
  destruct (window_of_span_inv config loc sample_times_utc iss_alt_deg
              iss_az_deg s e w Halt Haz ltac:(lia) ltac:(lia) Hw)
    as (p & Hfirst & -> & Horder & Hlong).
  apply window_at_valid; try assumption.
  assert (mask_at mask s = true) as Hs
    by (apply spans_cover_iff; exists s, e; split; [assumption | lia]).
  unfold mask in Hs. rewrite mask_at_map in Hs by lia.
  apply visible_b_iff in Hs. apply Hs.
Qed.

(** X9.  Every window that [_windows_from_samples] returns is well
    formed: its end is not before its start, its duration is their
    difference and at least the minimum window seconds, its peak
    elevation is at least the minimum elevation, its three times carry
    the observer's zone, its rating is the score of its peak and duration
    and lies in 1..5, and its three directions are the 16-point labels of
    its three azimuths. *)
Theorem X9_windows_from_samples_valid (config : Config.Config)
    (loc : Models.Location) (sample_times_utc : list Models.datetime)
    (iss_alt_deg iss_az_deg sun_alt_deg : list Q) (iss_sunlit : list bool)
    (windows : list Models.VisibilityWindow) :
  Predictor._windows_from_samples config loc sample_times_utc iss_alt_deg
    iss_az_deg sun_alt_deg iss_sunlit = Py.Ok windows ->
  Forall (valid_window config loc) windows.
Proof. apply windows_from_samples_valid. Qed.

Lemma X9_windows_from_samples_valid_witness :
  exists w,
    Predictor._windows_from_samples smoke_config natal smoke_times smoke_alt
      smoke_az smoke_sun smoke_sunlit = Py.Ok [w] /\
    valid_window smoke_config natal w.
Proof.
  eexists. split; [vm_compute; reflexivity |].
  eapply (Forall_inv (l := [])).
  apply (X9_windows_from_samples_valid smoke_config natal smoke_times
           smoke_alt smoke_az smoke_sun smoke_sunlit).
  vm_compute. reflexivity.
Defined.

Section OrchestratorInvariants.
Import Py Models Config Predictor.




End OrchestratorInvariants.

Section OrchestratorResults.
Import Py Models Config Predictor.


Lemma visible_windows_between_raises (fuel : nat) (server : Tle.Server)
    (sky : Skyfield) (config : Config) (loc : Location)
    (start_utc end_utc : any_datetime) (st : Tle.state) (e : exn) :
  fst (visible_windows_between fuel server sky config loc start_utc end_utc st)
  = Raise e ->
  exists msg, e = PredictionError msg.
Proof.
  unfold visible_windows_between.
  destruct start_utc as [| start_dt]; [intros [= <-]; eauto |].
  destruct end_utc as [| end_dt]; [intros [= <-]; eauto |].
  destruct (dt_leb end_dt start_dt); [discriminate |].
  destruct (load_timescale sky) as [[] | exc |]; cbn [fst];
    [| intros [= <-]; eauto | discriminate].
  destruct (Tle.fetch_tle server (tle_name config) (tle_url config) st)
    as [fetched st1].
  cbn [fst]. destruct (bind fetched _); cbn [wrap_prediction_error];
    [discriminate | intros [= <-]; eauto | discriminate].
Qed.

End OrchestratorResults.



(** X11.  Nothing but a [PredictionError] escapes
    [visible_windows_between]: a naive bound, a failed fetch of the
    element set, an error of the propagation service or of the window
    assembly all surface as that one exception. *)
Theorem X11_visible_windows_between_raises (fuel : nat) (server : Tle.Server)
    (sky : Predictor.Skyfield) (config : Config.Config)
    (loc : Models.Location) (start_utc end_utc : Models.any_datetime)
    (st : Tle.state) (e : Py.exn) :
  fst (Predictor.visible_windows_between fuel server sky config loc
         start_utc end_utc st) = Py.Raise e ->
  exists msg, e = Py.PredictionError msg.
Proof. apply visible_windows_between_raises. Qed.

Lemma X11_visible_windows_between_raises_witness :
  exists msg,
    Py.PredictionError
      "Failed to predict ISS visibility: Failed to fetch TLE from https://celestrak.org/NORAD/elements/gp.php?GROUP=stations&FORMAT=tle: connection refused"
    = Py.PredictionError msg.
Proof.
  apply (X11_visible_windows_between_raises 10 server_down demo_sky
           {| Config.tle_url := Config.tle_url Config.default;
              Config.tle_name := "NOT-ISS";
              Config.nominatim_user_agent :=
                Config.nominatim_user_agent Config.default;
              Config.min_elev_deg := 12;
              Config.twilight_deg := -10;
              Config.sample_seconds := 10;
              Config.min_window_seconds := 40;
              Config.project_url := EmptyString |}
           natal
           (Models.Aware {| Models.instant := 1772323000000000;
                            Models.tzinfo := Models.UTC |})
           (Models.Aware {| Models.instant := 1772324000000000;
                            Models.tzinfo := Models.UTC |})
           empty_state).
  vm_compute. reflexivity.
Defined.



(* ===================================================================== *)
(** * Further properties of the utilities                                 *)
(* ===================================================================== *)

Section Labels.
Import Py Models.

Lemma in_range (a b n : Z) : In n (range a b) <-> a <= n < b.
Proof.
  unfold range. rewrite in_map_iff. split.
  - intros (k & <- & Hk). apply in_seq in Hk. lia.
  - intros Hn. exists (Z.to_nat (n - a)). split; [lia |].
    apply in_seq. lia.
Qed.

Lemma forallb_range (f : Z -> bool) (a b : Z) :
  forallb f (range a b) = true -> forall n, a <= n < b -> f n = true.
Proof.
  intros Hall n Hn. rewrite forallb_forall in Hall.
  apply Hall, in_range, Hn.
Qed.

Lemma stars_text_range (stars : Z) :
  (1 <= stars <= 5 ->
   Utils.stars_text stars
   = Ok (String.concat EmptyString
           (repeat Utils.black_star (Z.to_nat stars)
            ++ repeat Utils.white_star (Z.to_nat (5 - stars))))) /\
  (~ 1 <= stars <= 5 ->
   Utils.stars_text stars = Raise (ValueError "stars must be in 1..5")).
Proof.
  unfold Utils.stars_text. split.
  - intros Hin.
    assert (stars = 1 \/ stars = 2 \/ stars = 3 \/ stars = 4 \/ stars = 5)
      as [-> | [-> | [-> | [-> | ->]]]] by lia; reflexivity.
  - intros Hout.
    destruct (Z.leb_spec 1 stars), (Z.leb_spec stars 5); cbn; try reflexivity.
    lia.
Qed.

Lemma stars_text_injective (a b : Z) (text : string) :
  Utils.stars_text a = Ok text -> Utils.stars_text b = Ok text -> a = b.
Proof.
  intros Ha Hb.
  assert (1 <= a <= 5) as Hra.
  { destruct (Z_le_dec 1 a), (Z_le_dec a 5); try lia;
      rewrite (proj2 (stars_text_range a)) in Ha by lia; discriminate. }
  assert (1 <= b <= 5) as Hrb.
  { destruct (Z_le_dec 1 b), (Z_le_dec b 5); try lia;
      rewrite (proj2 (stars_text_range b)) in Hb by lia; discriminate. }
  assert (forallb (fun x => forallb (stars_distinct x) (range 1 6)) (range 1 6)
          = true) as Hcheck by (vm_compute; reflexivity).
  pose proof (forallb_range _ 1 6 (forallb_range _ 1 6 Hcheck a ltac:(lia))
                b ltac:(lia)) as Hab.
  unfold stars_distinct in Hab. rewrite Ha, Hb, String.eqb_refl in Hab.
  cbn in Hab. now apply Z.eqb_eq.
Qed.

End Labels.

(** X13.  [stars_text] prints a rating of 1..5 as that many black stars
    followed by white stars up to five symbols, and raises [ValueError]
    for every other rating; different ratings give different texts; the
    copies of the function in [report.py] and [cli.py] agree with it; and
    it never raises on the rating of a window that
    [VisibilityWindow.__post_init__] accepted. *)
Theorem X13_stars_text :
  (forall stars, 1 <= stars <= 5 ->
     exists symbols,
       Utils.stars_text stars = Py.Ok (String.concat EmptyString symbols) /\
       length symbols = 5%nat /\
       symbols = repeat Utils.black_star (Z.to_nat stars)
                 ++ repeat Utils.white_star (Z.to_nat (5 - stars))) /\
  (forall stars, ~ 1 <= stars <= 5 ->
     Utils.stars_text stars = Py.Raise (Py.ValueError "stars must be in 1..5")) /\
  (forall a b text,
     Utils.stars_text a = Py.Ok text -> Utils.stars_text b = Py.Ok text ->
     a = b) /\
  (forall stars,
     Report._stars_text stars = Utils.stars_text stars /\
     Cli._stars_text stars = Utils.stars_text stars) /\
  (forall w w', Models.post_init w = Py.Ok w' ->
     exists text, Utils.stars_text (Models.visibility_stars w') = Py.Ok text).
Proof.
  split; [| split; [| split; [| split]]].
  - intros stars Hin. eexists. split; [apply stars_text_range, Hin |].
    split; [| reflexivity].
    rewrite length_app, !repeat_length. lia.
  - intros stars Hout. now apply stars_text_range.
  - apply stars_text_injective.
  - intros stars. split; reflexivity.
  - intros w w'. unfold Models.post_init.
    destruct (Models.dt_ltb _ _); [discriminate |].
    destruct (Models.Qlt_bool _ _); [discriminate |].
    destruct ((1 <=? Models.visibility_stars w)
              && (Models.visibility_stars w <=? 5)) eqn:Hstars;
      cbn [negb]; [| discriminate].
    intros [= <-]. apply andb_true_iff in Hstars as [H1 H5].
    apply Z.leb_le in H1. apply Z.leb_le in H5.
    eexists. apply stars_text_range. lia.
Qed.

Lemma X13_stars_text_witness :
  exists symbols,
    Utils.stars_text 3 = Py.Ok (String.concat EmptyString symbols) /\
    length symbols = 5%nat /\
    symbols = repeat Utils.black_star (Z.to_nat 3)
              ++ repeat Utils.white_star (Z.to_nat (5 - 3)).
Proof. apply (proj1 X13_stars_text 3). lia. Defined.

Section Durations.
Import Py Models.





End Durations.



Section SpanCount.
Import Py Utils.

Lemma spans_from_size (mask : list bool) :
  forall (i : Z) (start : option Z),
    spans_size (spans_from i start mask)
    = match start with
      | Some s => i - s
      | None => 0
      end + count_true mask.
Proof.
  unfold count_true.
  induction mask as [| value rest IH]; intros i start.
  - destruct start; cbn; lia.
  - cbn [spans_from]. destruct value, start as [s |];
      cbn [spans_size fold_right fst snd count_occ];
      fold (spans_size (spans_from (i + 1) None rest));
      rewrite ?IH;
      repeat match goal with
             | |- context [Bool.bool_dec ?a ?b] =>
                 destruct (Bool.bool_dec a b); try congruence
             end;
      lia.
Qed.

End SpanCount.

(** X15.  The spans of a mask hold, between them, exactly as many
    indices as the mask has true values: no true value is counted twice
    and none is left out. *)
Theorem X15_spans_size (mask : list bool) :
  spans_size (Utils.contiguous_true_spans mask) = count_true mask.
Proof.
  rewrite contiguous_true_spans_spans_from, spans_from_size. lia.
Qed.

(* ===================================================================== *)
(** * A served document                                                *)
(* ===================================================================== *)

(** X16.  When the server answers the first request with a document,
    [fetch_tle] sends no other request and returns what the document
    parses to: its first record for the name, which it caches, or else
    the not-found error, also for the bundled satellite's name, for which
    there is then no fallback. *)
Theorem X16_fetch_tle_document (server : Tle.Server) (name url text : string)
    (st : Tle.state) :
  Tle._TLE_CACHE st !! (name, url) = None ->
  server (Tle.requests_sent st) url = Py.Ok text ->
  let r := fst (Tle.fetch_tle server name url st) in
  let st' := snd (Tle.fetch_tle server name url st) in
  r = Tle._parse_tle name text url /\
  Tle.requests_sent st' = Tle.requests_sent st ++ [url] /\
  ((forall i, 0 <= i ->
      record_at (tle_lines text) (Py.lower (Py.strip name)) i = None) ->
   r = Py.Raise (not_found name url) /\
   Tle._TLE_CACHE st' = Tle._TLE_CACHE st).
Proof.
  intros Hkey Htext. cbv zeta.
  pose proof (fetch_and_parse_text server name url (name, url) st text Htext)
    as Hres.
  pose proof (fetch_and_parse_sent server name url (name, url) st) as Hsent.
  pose proof (fetch_and_parse_cache server name url (name, url) st) as Hcache.
  cbv zeta in Hcache.
  unfold Tle.fetch_tle. rewrite Hkey.
  destruct (Tle.fetch_and_parse server name url (name, url) st) as [r1 st1].
  cbn [fst snd] in *.
  destruct r1 as [tle | e |].
  - cbn [fst snd]. split; [assumption |]. split; [assumption |].
    intros Hnone. rewrite (parse_tle_not_found name text url Hnone) in Hres.
    discriminate.
  - pose proof (parse_exn name text url e (eq_sym Hres)) as Hexn.
    destruct e; try discriminate; cbn [fst snd];
      (split; [assumption |]); (split; [assumption |]);
      intros Hnone; rewrite <- (parse_tle_not_found name text url Hnone);
      auto.
  - cbn [fst snd]. split; [assumption |]. split; [assumption |].
    intros Hnone. rewrite (parse_tle_not_found name text url Hnone) in Hres.
    discriminate.
Qed.

Lemma X16_fetch_tle_document_witness :
  fst (Tle.fetch_tle (fun _ _ => Py.Ok other_document) "ISS (ZARYA)"
         "https://example.test/tle.txt" empty_state)
  = Tle._parse_tle "ISS (ZARYA)" other_document "https://example.test/tle.txt".
Proof.
  exact (proj1 (X16_fetch_tle_document (fun _ _ => Py.Ok other_document)
                  "ISS (ZARYA)" "https://example.test/tle.txt" other_document
                  empty_state eq_refl eq_refl)).
Defined.

(* ===================================================================== *)
(** * The order of the windows of a pass                               *)
(* ===================================================================== *)

Section WindowOrder.
Import Py Models Config Predictor.

Lemma sorted_snoc_by {A : Type} (R : A -> A -> Prop) (l : list A) (x : A) :
  StronglySorted R l -> Forall (fun a => R a x) l ->
  StronglySorted R (l ++ [x]).
Proof.
  induction 1 as [| a l Hsorted IH Hall]; intros Hle; cbn.
  - repeat constructor.
  - apply List.Forall_cons_iff in Hle as [Ha Hle].
    constructor; [auto |].
    apply List.Forall_app. split; [assumption | repeat constructor; assumption].
Qed.

(** What [_windows_from_samples] returns is what the loop returns on the
    spans of the mask. *)
Lemma windows_from_samples_inv (config : Config) (loc : Location)
    (sample_times_utc : list datetime)
    (iss_alt_deg iss_az_deg sun_alt_deg : list Q) (iss_sunlit : list bool)
    (windows : list VisibilityWindow) :
  _windows_from_samples config loc sample_times_utc iss_alt_deg iss_az_deg
    sun_alt_deg iss_sunlit = Ok windows ->
  exists spans,
    len sample_times_utc = len iss_alt_deg /\
    len sample_times_utc = len iss_az_deg /\
    StronglySorted gap spans /\
    Forall (fun sp => 0 <= fst sp <= snd sp /\ snd sp < len sample_times_utc)
           spans /\
    windows_loop config loc sample_times_utc iss_alt_deg iss_az_deg spans []
    = Ok windows.
Proof.
  unfold _windows_from_samples.
  set (n := len sample_times_utc).
  destruct (same_length n iss_alt_deg iss_az_deg sun_alt_deg iss_sunlit)
    eqn:Hsame; cbn [negb]; [| discriminate].
  apply same_length_true in Hsame as (Halt & Haz & Hsun & Hlit).
  destruct (n =? 0).
  { intros [= <-]. exists []. repeat split; try assumption; constructor. }
  assert (0 <= n) as Hn by apply len_nonneg.
  rewrite (visibility_mask_spec config iss_alt_deg sun_alt_deg iss_sunlit n
             Hn Halt Hsun Hlit).
  cbn [bind].
  set (mask := map (visible_b config iss_alt_deg sun_alt_deg iss_sunlit)
                   (range 0 n)).
  assert (len mask = n) as Hmasklen
    by (unfold mask, len; rewrite length_map, range_length; lia).
  intros Hloop. exists (Utils.contiguous_true_spans mask).
  repeat split; try assumption; [apply spans_sorted |].
  apply List.Forall_forall. intros [s e] Hin.
  apply spans_in_bounds in Hin. cbn [fst snd]. lia.
Qed.

Section Loop.

Variables (config : Config) (loc : Location)
          (sample_times_utc : list datetime) (iss_alt_deg iss_az_deg : list Q).
Hypothesis same_alt : len sample_times_utc = len iss_alt_deg.
Hypothesis same_az : len sample_times_utc = len iss_az_deg.

Lemma windows_loop_on_samples (spans : list (Z * Z)) :
  Forall (fun sp => 0 <= fst sp <= snd sp /\ snd sp < len sample_times_utc)
         spans ->
  forall windows,
    windows_loop config loc sample_times_utc iss_alt_deg iss_az_deg spans []
    = Ok windows ->
    Forall (on_samples sample_times_utc) windows.
Proof using same_alt same_az.
  intros Hbounds windows Hloop.
  eapply windows_loop_inv; [| constructor | exact Hloop].
  eapply List.Forall_impl; [| exact Hbounds].
  intros [s e] Hb w Hw. cbn [fst snd] in Hb.
  destruct (window_of_span_inv config loc sample_times_utc iss_alt_deg
              iss_az_deg s e w same_alt same_az ltac:(lia) ltac:(lia) Hw)
    as (p & (Hp & _) & -> & _).
  exists s, p, e. repeat split; try lia.
Qed.

Hypothesis in_order : chronological sample_times_utc.

Lemma windows_loop_sorted (spans : list (Z * Z)) :
  StronglySorted gap spans ->
  Forall (fun sp => 0 <= fst sp <= snd sp /\ snd sp < len sample_times_utc)
         spans ->
  forall acc windows,
    StronglySorted before acc ->
    Forall (fun a =>
              Forall (fun sp =>
                        instant (end_local a)
                        <= instant (item epoch sample_times_utc (fst sp)))
                     spans) acc ->
    windows_loop config loc sample_times_utc iss_alt_deg iss_az_deg spans acc
    = Ok windows ->
    StronglySorted before windows.
Proof using same_alt same_az in_order.
  induction 1 as [| [s e] spans Hsorted IH Hgap];
    intros Hbounds acc windows Hacc Hends; cbn [windows_loop].
  - now intros [= <-].
  - apply List.Forall_cons_iff in Hbounds as [Hb Hbounds]. cbn [fst snd] in Hb.
    assert (Forall (fun a =>
                      Forall (fun sp =>
                                instant (end_local a)
                                <= instant (item epoch sample_times_utc (fst sp)))
                             spans) acc) as Hends'.
    { eapply List.Forall_impl; [| exact Hends].
      intros a Ha. now apply List.Forall_cons_iff in Ha as [_ Ha]. }
    destruct (window_of_span _ _ _ _ _ (s, e)) as [[w |] | exc |] eqn:Hw;
      cbn [bind]; try discriminate.
    + destruct (window_of_span_inv config loc sample_times_utc iss_alt_deg
                  iss_az_deg s e w same_alt same_az ltac:(lia) ltac:(lia) Hw)
        as (p & Hfirst & -> & _).
      apply IH; try assumption.
      * apply sorted_snoc_by; [assumption |].
        eapply List.Forall_impl; [| exact Hends].
        intros a Ha. apply List.Forall_cons_iff in Ha as [Ha _].
        exact Ha.
      * apply List.Forall_app. split; [assumption |].
        constructor; [| constructor].
        rewrite List.Forall_forall in Hgap, Hbounds.
        apply List.Forall_forall. intros [s' e'] Hin.
        specialize (Hgap _ Hin). specialize (Hbounds _ Hin).
        unfold gap in Hgap. cbn [fst snd] in *.
        unfold window_at. cbn [end_local astimezone instant].
        apply in_order; lia.
    + now apply IH.
Qed.

End Loop.

Lemma on_samples_within (sample_times_utc : list datetime)
    (w : VisibilityWindow) (lo hi : Z) :
  chronological sample_times_utc ->
  Forall (fun d => lo <= instant d <= hi) sample_times_utc ->
  on_samples sample_times_utc w -> within lo hi w.
Proof.
  intros Hchrono Hall (s & p & e & Hsp & Hpe & Hs & Hp & He).
  rewrite List.Forall_forall in Hall. unfold within.
  rewrite Hs, Hp, He.
  assert (forall i, 0 <= i < len sample_times_utc ->
                    lo <= instant (item epoch sample_times_utc i) <= hi) as Hin.
  { intros i Hi. apply Hall. unfold item. apply nth_In.
    unfold len in Hi. lia. }
  pose proof (Hin s ltac:(lia)). pose proof (Hin e ltac:(lia)).
  pose proof (Hchrono s p ltac:(lia) ltac:(lia)).
  pose proof (Hchrono p e ltac:(lia) ltac:(lia)).
  lia.
Qed.

End WindowOrder.

Section Chronological.
Import Py Models.

Lemma item_cons {A : Type} (d a : A) (l : list A) (i : Z) :
  0 < i -> item d (a :: l) i = item d l (i - 1).
Proof.
  intros Hi. unfold item.
  replace (Z.to_nat i) with (S (Z.to_nat (i - 1))) by lia. reflexivity.
Qed.

Lemma item_in {A : Type} (d : A) (l : list A) (i : Z) :
  0 <= i < len l -> In (item d l i) l.
Proof.
  intros Hi. unfold item. apply nth_In. unfold len in Hi. lia.
Qed.

(** Sample times whose instants are sorted never go back. *)
Lemma sorted_chronological (sample_times_utc : list datetime) :
  StronglySorted Z.le (map instant sample_times_utc) ->
  chronological sample_times_utc.
Proof.
  induction sample_times_utc as [| a l IH]; intros Hsorted i j Hij Hj.
  - unfold len in Hj. cbn in Hj. lia.
  - cbn [map] in Hsorted. apply StronglySorted_inv in Hsorted as [Hl Ha].
    assert (len (a :: l) = len l + 1) as Hlen
      by (unfold len; cbn [length]; lia).
    destruct (Z.eq_dec i 0) as [-> | Hi].
    + destruct (Z.eq_dec j 0) as [-> | Hj0]; [reflexivity |].
      rewrite (item_cons epoch a l j) by lia.
      change (item epoch (a :: l) 0) with a.
      rewrite List.Forall_forall in Ha. apply Ha.
      apply in_map. apply item_in. lia.
    + rewrite (item_cons epoch a l i), (item_cons epoch a l j) by lia.
      apply (IH Hl); lia.
Qed.

End Chronological.

(** X17.  When the sample times never go back, the windows that
    [_windows_from_samples] returns for a pass do not overlap and come in
    order of time: each ends no later than the next begins, and each has
    its start, peak and end at sample times that follow in that order. *)
Theorem X17_windows_in_order (config : Config.Config) (loc : Models.Location)
    (sample_times_utc : list Models.datetime)
    (iss_alt_deg iss_az_deg sun_alt_deg : list Q) (iss_sunlit : list bool)
    (windows : list Models.VisibilityWindow) :
  chronological sample_times_utc ->
  Predictor._windows_from_samples config loc sample_times_utc iss_alt_deg
    iss_az_deg sun_alt_deg iss_sunlit = Py.Ok windows ->
  StronglySorted before windows /\
  Forall (on_samples sample_times_utc) windows /\
  Forall (fun w =>
            Models.instant (Models.start_local w)
            <= Models.instant (Models.peak_local w)
            <= Models.instant (Models.end_local w)) windows.
Proof.
  intros Hchrono Hok.
  destruct (windows_from_samples_inv _ _ _ _ _ _ _ _ Hok)
    as (spans & Halt & Haz & Hsorted & Hbounds & Hloop).
  pose proof (windows_loop_on_samples config loc sample_times_utc iss_alt_deg
                iss_az_deg Halt Haz spans Hbounds windows Hloop) as Hon.
  split; [| split; [exact Hon |]].
  - eapply (windows_loop_sorted config loc sample_times_utc iss_alt_deg
              iss_az_deg Halt Haz Hchrono spans Hsorted Hbounds []);
      [constructor | constructor | exact Hloop].
  - eapply List.Forall_impl; [| exact Hon].
    intros w (s & p & e & Hsp & Hpe & Hs & Hp & He).
    cbv beta. rewrite Hs, Hp, He.
    split; apply Hchrono; lia.
Qed.

Lemma X17_windows_in_order_witness :
  exists w,
    Predictor._windows_from_samples smoke_config natal smoke_times smoke_alt
      smoke_az smoke_sun smoke_sunlit = Py.Ok [w] /\
    on_samples smoke_times w.
Proof.
  eexists. split; [vm_compute; reflexivity |].
  eapply (Forall_inv (l := [])).
  apply (X17_windows_in_order smoke_config natal smoke_times smoke_alt
           smoke_az smoke_sun smoke_sunlit).
  - apply sorted_chronological. vm_compute.
    repeat (constructor; try discriminate).
  - vm_compute. reflexivity.
Defined.

Section PassSamples.
Import Py Models Config Predictor.

(** What the sampling loop appends is sorted and lies between the cursor
    and the set time. *)
Lemma sample_loop_inv (set_dt : datetime) (step : Z) (fuel : nat) :
  forall (cursor : datetime) (samples_utc samples : list datetime),
    sample_loop fuel cursor set_dt step samples_utc = Ok samples ->
    exists appended,
      samples = samples_utc ++ appended /\
      StronglySorted Z.le (map instant appended) /\
      Forall (fun d => instant cursor <= instant d <= instant set_dt) appended.
Proof.
  induction fuel as [| fuel IH]; intros cursor samples_utc samples;
    cbn [sample_loop]; [discriminate |].
  unfold dt_leb.
  destruct (Z.leb_spec (instant cursor) (instant set_dt)) as [Hle | Hgt].
  - intros Hloop.
    destruct (Z_lt_le_dec 0 step) as [Hpos | Hnonpos].
    + destruct (IH _ _ _ Hloop) as (appended & -> & Hsorted & Hall).
      cbn [dt_add instant] in Hall.
      exists (cursor :: appended). rewrite <- List.app_assoc.
      split; [reflexivity |]. split.
      * cbn [map]. constructor; [assumption |].
        apply List.Forall_map. eapply List.Forall_impl; [| exact Hall].
        cbv beta. intros d Hd. lia.
      * constructor; [lia |].
        eapply List.Forall_impl; [| exact Hall]. cbv beta. intros d Hd. lia.
    + rewrite sample_loop_diverges in Hloop;
        [discriminate | assumption | cbn [dt_add instant]; lia].
  - intros [= <-]. exists []. rewrite List.app_nil_r.
    split; [reflexivity |]. split; constructor.
Qed.

(** The samples of a pass are sorted and lie between the rise and the
    set. *)
Lemma pass_samples_inv (fuel : nat) (config : Config)
    (rise_dt set_dt : datetime) (samples : list datetime) :
  pass_samples fuel config rise_dt set_dt = Ok samples ->
  StronglySorted Z.le (map instant samples) /\
  Forall (fun d => instant rise_dt <= instant d <= instant set_dt) samples.
Proof.
  unfold pass_samples.
  destruct (sample_loop fuel rise_dt set_dt _ []) as [l | |] eqn:Hloop;
    cbn [bind]; try discriminate.
  destruct (sample_loop_inv _ _ _ _ _ _ Hloop) as (appended & -> & Hsorted & Hall).
  cbn [app].
  destruct (index appended (-1)) as [last_sample | |] eqn:Hlast;
    cbn [bind]; try discriminate.
  destruct (negb (dt_eqb last_sample set_dt)); intros [= <-];
    [| split; assumption].
  destruct appended as [| first rest]; [discriminate |].
  assert (instant rise_dt <= instant set_dt) as Hle
    by (apply List.Forall_cons_iff in Hall as [Hfirst _]; lia).
  split.
  - rewrite map_app. apply sorted_snoc; [assumption |].
    apply List.Forall_map. eapply List.Forall_impl; [| exact Hall].
    cbv beta. intros d Hd. lia.
  - apply List.Forall_app. split; [assumption |].
    constructor; [lia | constructor].
Qed.

(** The windows of a pass lie inside the pass and do not overlap. *)
Lemma predict_pass_windows_inside (fuel : nat) (sky : Skyfield)
    (config : Config) (loc : Location) (tle : TLE) (rise_time set_time : Time)
    (windows : list VisibilityWindow) :
  _predict_pass_windows fuel sky config loc tle rise_time set_time = Ok windows ->
  exists rise_dt set_dt,
    _single_utc_datetime rise_time = Ok rise_dt /\
    _single_utc_datetime set_time = Ok set_dt /\
    StronglySorted before windows /\
    Forall (within (instant rise_dt) (instant set_dt)) windows.
Proof.
  unfold _predict_pass_windows.
  destruct (_single_utc_datetime rise_time) as [rise_dt | |]; cbn [bind];
    try discriminate.
  destruct (_single_utc_datetime set_time) as [set_dt | |]; cbn [bind];
    try discriminate.
  destruct (pass_samples fuel config rise_dt set_dt) as [samples | |] eqn:Hsamples;
    cbn [bind]; try discriminate.
  destruct (sample_geometry sky tle loc samples)
    as [[[[alt az] sun] lit] | |]; cbn [bind]; try discriminate.
  intros Hok. exists rise_dt, set_dt.
  split; [reflexivity |]. split; [reflexivity |].
  destruct (pass_samples_inv _ _ _ _ _ Hsamples) as [Hsorted Hall].
  pose proof (sorted_chronological samples Hsorted) as Hchrono.
  destruct (windows_from_samples_inv _ _ _ _ _ _ _ _ Hok)
    as (spans & Halt & Haz & Hspans & Hbounds & Hloop).
  split.
  - eapply (windows_loop_sorted config loc samples alt az Halt Haz Hchrono
              spans Hspans Hbounds []);
      [constructor | constructor | exact Hloop].
  - eapply List.Forall_impl;
      [| exact (windows_loop_on_samples config loc samples alt az Halt Haz
                  spans Hbounds windows Hloop)].
    intros w Hw. now apply (on_samples_within samples).
Qed.

End PassSamples.

(** X18.  The windows that [_predict_pass_windows] returns for one pass
    lie inside the pass: none begins before the rise or ends after the
    set, the peak of each is between its start and its end, and each
    window ends no later than the next begins. *)
Theorem X18_pass_windows_inside (fuel : nat) (sky : Predictor.Skyfield)
    (config : Config.Config) (loc : Models.Location) (tle : Models.TLE)
    (rise_time set_time : Predictor.Time)
    (windows : list Models.VisibilityWindow) :
  Predictor._predict_pass_windows fuel sky config loc tle rise_time set_time
  = Py.Ok windows ->
  exists rise_dt set_dt,
    Predictor._single_utc_datetime rise_time = Py.Ok rise_dt /\
    Predictor._single_utc_datetime set_time = Py.Ok set_dt /\
    StronglySorted before windows /\
    Forall (within (Models.instant rise_dt) (Models.instant set_dt)) windows.
Proof.
  apply predict_pass_windows_inside.
Qed.

Lemma X18_pass_windows_inside_witness :
  exists w,
    Predictor._predict_pass_windows 10 demo_sky Config.default natal
      Tle._BUNDLED_ISS_TLE
      (Predictor.RawDatetime (Models.Aware demo_rise))
      (Predictor.RawDatetime (Models.Aware demo_set)) = Py.Ok [w] /\
    within (Models.instant demo_rise) (Models.instant demo_set) w.
Proof.
  eexists. split; [vm_compute; reflexivity |].
  destruct (X18_pass_windows_inside 10 demo_sky Config.default natal
              Tle._BUNDLED_ISS_TLE
              (Predictor.RawDatetime (Models.Aware demo_rise))
              (Predictor.RawDatetime (Models.Aware demo_set)) _
              ltac:(vm_compute; reflexivity))
    as (rise_dt & set_dt & Hrise & Hset & _ & Hall).
  injection Hrise as <-. injection Hset as <-.
  exact (Forall_inv Hall).
Defined.

(* ===================================================================== *)
(** * The grouping of the report by day                                *)
(* ===================================================================== *)

Section Grouping.
Import Py Models Report.

Variable date_isoformat : datetime -> string.





End Grouping.



(* ===================================================================== *)
(** * The cache across predictions                                     *)
(* ===================================================================== *)

Section Reuse.
Import Py Models Config Predictor.

(** A returned element set is in the cache of the state that the call
    leaves. *)
Lemma fetch_tle_ok_cached (server : Tle.Server) (name url : string)
    (st : Tle.state) (tle : TLE) :
  fst (Tle.fetch_tle server name url st) = Ok tle ->
  Tle._TLE_CACHE (snd (Tle.fetch_tle server name url st)) !! (name, url)
  = Some tle.
Proof.
  intros Hok.
  destruct (Tle._TLE_CACHE st !! (name, url)) as [cached |] eqn:Hkey.
  - unfold Tle.fetch_tle in *. rewrite Hkey in *. cbn [fst snd] in *.
    now injection Hok as ->.
  - pose proof (fetch_tle_miss server name url st Hkey) as Hmiss.
    cbv zeta in Hmiss. rewrite Hok in Hmiss. rewrite Hmiss.
    apply lookup_insert_eq.
Qed.

(** A prediction that finds the element set in the cache leaves the state
    as it is. *)
Lemma visible_windows_between_cached (fuel : nat) (server : Tle.Server)
    (sky : Skyfield) (config : Config) (loc : Location)
    (start_utc end_utc : any_datetime) (st : Tle.state) (tle : TLE) :
  Tle._TLE_CACHE st !! (tle_name config, tle_url config) = Some tle ->
  snd (visible_windows_between fuel server sky config loc start_utc end_utc st)
  = st.
Proof.
  intros Hcached. unfold visible_windows_between.
  destruct start_utc as [| start_dt]; [reflexivity |].
  destruct end_utc as [| end_dt]; [reflexivity |].
  destruct (dt_leb end_dt start_dt); [reflexivity |].
  destruct (load_timescale sky) as [[] | |]; try reflexivity.
  unfold Tle.fetch_tle. rewrite Hcached. reflexivity.
Qed.

(** A prediction that returns windows over a non-empty range has put the
    element set of its configuration into the cache. *)
Lemma visible_windows_between_caches (fuel : nat) (server : Tle.Server)
    (sky : Skyfield) (config : Config) (loc : Location)
    (start_dt end_dt : datetime) (st : Tle.state)
    (windows : list VisibilityWindow) :
  instant start_dt < instant end_dt ->
  fst (visible_windows_between fuel server sky config loc
         (Aware start_dt) (Aware end_dt) st) = Ok windows ->
  exists tle,
    Tle._TLE_CACHE
      (snd (visible_windows_between fuel server sky config loc
              (Aware start_dt) (Aware end_dt) st))
    !! (tle_name config, tle_url config) = Some tle.
Proof.
  intros Hrange. unfold visible_windows_between, dt_leb.
  destruct (Z.leb_spec (instant end_dt) (instant start_dt)); [lia |].
  destruct (load_timescale sky) as [[] | |]; try discriminate.
  pose proof (fetch_tle_ok_cached server (tle_name config) (tle_url config) st)
    as Hfetch.
  destruct (Tle.fetch_tle server (tle_name config) (tle_url config) st)
    as [fetched st1].
  cbn [fst snd] in *.
  destruct fetched as [tle | |]; cbn [bind wrap_prediction_error];
    try discriminate.
  intros _. exists tle. now apply Hfetch.
Qed.

End Reuse.

(** X20.  After a prediction that returned windows over a non-empty range,
    the element set of the configuration is cached, and every later
    prediction with the same TLE name and URL sends no request and leaves
    the state as it is, whatever the server, the location and the range. *)
Theorem X20_prediction_reuses_tle (fuel : nat) (server : Tle.Server)
    (sky : Predictor.Skyfield) (config : Config.Config) (loc : Models.Location)
    (start_dt end_dt : Models.datetime) (st : Tle.state)
    (windows : list Models.VisibilityWindow) :
  Models.instant start_dt < Models.instant end_dt ->
  fst (Predictor.visible_windows_between fuel server sky config loc
         (Models.Aware start_dt) (Models.Aware end_dt) st) = Py.Ok windows ->
  let st1 :=
    snd (Predictor.visible_windows_between fuel server sky config loc
           (Models.Aware start_dt) (Models.Aware end_dt) st) in
  (exists tle,
     Tle._TLE_CACHE st1 !! (Config.tle_name config, Config.tle_url config)
     = Some tle) /\
  forall fuel' server' sky' config' loc' start_utc' end_utc',
    Config.tle_name config' = Config.tle_name config ->
    Config.tle_url config' = Config.tle_url config ->
    snd (Predictor.visible_windows_between fuel' server' sky' config' loc'
           start_utc' end_utc' st1) = st1.
Proof.
  intros Hrange Hok st1.
  destruct (visible_windows_between_caches fuel server sky config loc
              start_dt end_dt st windows Hrange Hok) as [tle Hcached].
  split; [now exists tle |].
  intros fuel' server' sky' config' loc' start_utc' end_utc' Hname Hurl.
  apply (visible_windows_between_cached fuel' server' sky' config' loc'
           start_utc' end_utc' st1 tle).
  now rewrite Hname, Hurl.
Qed.

Lemma X20_prediction_reuses_tle_witness :
  let first :=
    Predictor.visible_windows_between 10 server_down demo_sky Config.default
      natal
      (Models.Aware {| Models.instant := 1772323000000000;
                       Models.tzinfo := Models.UTC |})
      (Models.Aware {| Models.instant := 1772324000000000;
                       Models.tzinfo := Models.UTC |})
      empty_state in
  snd (Predictor.visible_windows_between 10 server_500 demo_sky Config.default
         natal
         (Models.Aware {| Models.instant := 1772323000000000;
                          Models.tzinfo := Models.UTC |})
         (Models.Aware {| Models.instant := 1772329000000000;
                          Models.tzinfo := Models.UTC |})
         (snd first)) = snd first.
Proof.
  intros first.
  refine (proj2 (X20_prediction_reuses_tle 10 server_down demo_sky
                   Config.default natal
                   {| Models.instant := 1772323000000000;
                      Models.tzinfo := Models.UTC |}
                   {| Models.instant := 1772324000000000;
                      Models.tzinfo := Models.UTC |}
                   empty_state _ _ _)
                10%nat server_500 demo_sky Config.default natal _ _
                eq_refl eq_refl).
  - cbn. lia.
  - vm_compute. reflexivity.
Defined.

(* ===================================================================== *)
(** * The tests of the repository, replayed on the embedding              *)
(* ===================================================================== *)

Example test_contiguous_true_spans :
  Utils.contiguous_true_spans [] = [] /\
  Utils.contiguous_true_spans [false; false] = [] /\
  Utils.contiguous_true_spans [true] = [(0, 0)] /\
  Utils.contiguous_true_spans [true; true] = [(0, 1)] /\
  Utils.contiguous_true_spans [true; false; true; false; true]
  = [(0, 0); (2, 2); (4, 4)] /\
  Utils.contiguous_true_spans [false; true; false] = [(1, 1)].
Proof. repeat split. Qed.

Example test_az_to_cardinal_16_points :
  Utils.az_to_cardinal (1124 # 100) 16 = Py.Ok "N"%string /\
  Utils.az_to_cardinal (3375 # 100) 16 = Py.Ok "NE"%string /\
  Utils.az_to_cardinal 90 16 = Py.Ok "E"%string /\
  Utils.az_to_cardinal 180 16 = Py.Ok "S"%string /\
  Utils.az_to_cardinal 270 16 = Py.Ok "W"%string /\
  Utils.az_to_cardinal (34875 # 100) 16 = Py.Ok "N"%string /\
  Utils.az_to_cardinal (35999 # 100) 16 = Py.Ok "N"%string.
Proof. vm_compute. repeat split. Qed.

Example test_fetch_tle_success :
  fst (Tle.fetch_tle (fun _ _ => Py.Ok iss_document) "ISS (ZARYA)"
         "https://example.test/success.txt" empty_state)
  = Py.Ok Tle._BUNDLED_ISS_TLE.
Proof. vm_compute. reflexivity. Qed.

Example test_fetch_tle_not_found :
  fst (Tle.fetch_tle (fun _ _ => Py.Ok other_document) "ISS (ZARYA)"
         "https://example.test/not-found.txt" empty_state)
  = Py.Raise (Py.TLEFetchError
      "TLE 'ISS (ZARYA)' not found in https://example.test/not-found.txt").
Proof. vm_compute. reflexivity. Qed.

Example test_fetch_tle_request_error :
  fst (Tle.fetch_tle server_down "ISS (ZARYA)"
         "https://example.test/error.txt" empty_state)
  = Py.Ok Tle._BUNDLED_ISS_TLE.
Proof. vm_compute. reflexivity. Qed.

Example test_fetch_tle_request_error_non_iss_still_fails :
  fst (Tle.fetch_tle server_down "NOT-ISS"
         "https://example.test/error-non-iss.txt" empty_state)
  = Py.Raise (Py.TLEFetchError
      "Failed to fetch TLE from https://example.test/error-non-iss.txt: connection refused").
Proof. vm_compute. reflexivity. Qed.

Example test_fetch_tle_fallback_from_stations_403_to_gp :
  let run := Tle.fetch_tle server_403_then_iss "ISS (ZARYA)"
               Tle._FALLBACK_STATIONS_URL empty_state in
  fst run = Py.Ok Tle._BUNDLED_ISS_TLE /\
  Py.len (Tle.requests_sent (snd run)) = 2.
Proof. vm_compute. split; reflexivity. Qed.

Example test_windows_from_samples_filters_short_spans :
  Predictor._windows_from_samples
    {| Config.tle_url := Config.tle_url Config.default;
       Config.tle_name := Config.tle_name Config.default;
       Config.nominatim_user_agent := Config.nominatim_user_agent Config.default;
       Config.min_elev_deg := 15;
       Config.twilight_deg := -12;
       Config.sample_seconds := 10;
       Config.min_window_seconds := 40;
       Config.project_url := EmptyString |}
    natal (firstn 4 smoke_times) [5; 16; 18; 4]%Q [200; 220; 250; 280]%Q
    [-15; -15; -15; -15]%Q [true; true; true; true]
  = Py.Ok [].
Proof. vm_compute. reflexivity. Qed.

Example test_windows_from_samples_builds_visible_span :
  match Predictor._windows_from_samples smoke_config natal smoke_times
          smoke_alt smoke_az smoke_sun smoke_sunlit with
  | Py.Ok [win] =>
      Models.duration win = Models.timedelta_seconds 20 /\
      Models.peak_elevation_deg win = 24%Q /\
      Models.start_direction win = "SW"%string /\
      Models.visibility_stars win = 2
  | _ => False
  end.
Proof. vm_compute. repeat split. Qed.
